(** * AUTOSAR ARXML element model and writer

    A shallow embedding of [src/autosar/xml/element.py] (the element model:
    references, value specifications, units, packages) and of
    [src/autosar/xml/writer.py] (the text writer), followed by the
    properties proved about them.

    Conventions.
    - A Python exception is modelled by its class ([exn]); message texts are
      not modelled.  [NotModelled] is no Python exception: it marks the one
      place where the text Python would write is outside this development
      ([str] of a value that is neither a number nor a string).
    - A call that may raise returns an [outcome]; a call that also mutates
      objects is a function from the store to an outcome and the store as it
      is when the call returns or raises.
    - Python strings are [string]s; an [ascii] stands for one character.
    - Definitions keep the names of the source. *)

From Stdlib Require Import ZArith NArith String Ascii List Bool Lia.
From Stdlib Require Import DecimalString HexadecimalString HexadecimalN HexadecimalPos.
From Stdlib Require Import DecimalN DecimalPos DecimalZ DecimalFacts.
From stdpp Require Import base option list gmap strings.

Set Warnings "-register-all".

Local Open Scope string_scope.
Local Open Scope Z_scope.

(** ** Python values *)

Inductive exn : Set :=
  | ValueError
  | TypeError
  | KeyError
  | IndexError
  | AttributeError
  | AssertionError
  | NotImplementedError
  | RecursionError
  | OverflowError
  | InvalidOperation
  | NotModelled.

Inductive outcome (A : Type) : Type :=
  | Return (a : A)
  | Raise (e : exn).
Arguments Return {A} a.
Arguments Raise {A} e.

Definition returns {A : Type} (o : outcome A) : bool :=
  match o with Return _ => true | Raise _ => false end.

Definition obind {A B : Type} (o : outcome A) (k : A -> outcome B) : outcome B :=
  match o with Return a => k a | Raise e => Raise e end.

(** [decimal.Decimal], finite values only: the number
    [(-1)^sign * coefficient * 10^exponent].  [_int] is the coefficient, which
    Python keeps as a digit string without leading zeros. *)
Record Decimal : Set := mkDecimal {
  _sign : bool;
  _int : N;
  _exp : Z
}.

(** A Python [float], as the writer observes it: infinite, not a number, or
    finite.  A finite float is given by the decimal that
    [decimal.Decimal(str(value))] denotes, that is sign, digits and exponent
    of the shortest representation [str] prints: [2.0] is [20E-1], [0.5] is
    [5E-1], [1e+28] is [1E+28]. *)
Inductive pyfloat : Set :=
  | F_inf (negative : bool)
  | F_nan
  | F_finite (repr : Decimal).

(** Plain Python data.  [VObject] is an instance of a class that is none of
    the built-in types listed, named by its class. *)
Inductive pyval : Type :=
  | VNone
  | VBool (b : bool)
  | VInt (z : Z)
  | VFloat (f : pyfloat)
  | VStr (s : string)
  | VList (l : list pyval)
  | VTuple (l : list pyval)
  | VObject (class_name : string).

(** [isinstance(v, int)]: [bool] is a subclass of [int]. *)
Definition isinstance_int (v : pyval) : bool :=
  match v with VInt _ | VBool _ => true | _ => false end.

Definition isinstance_float (v : pyval) : bool :=
  match v with VFloat _ => true | _ => false end.

Definition isinstance_str (v : pyval) : bool :=
  match v with VStr _ => true | _ => false end.

(** The integer an [int] instance stands for ([True] is 1). *)
Definition int_value (v : pyval) : option Z :=
  match v with
  | VInt z => Some z
  | VBool b => Some (if b then 1 else 0)
  | _ => None
  end.

(** [sep.join(parts)] *)
Fixpoint join (sep : string) (parts : list string) : string :=
  match parts with
  | [] => ""
  | [p] => p
  | p :: rest => p +:+ sep +:+ join sep rest
  end.

(** [str.upper] on one character and on a string.  Only the ASCII letters
    are mapped; every other character is left as it is. *)
Definition upper_char (c : ascii) : ascii :=
  let n := nat_of_ascii c in
  if (andb (Nat.leb 97 n) (Nat.leb n 122)) then ascii_of_nat (n - 32) else c.

Fixpoint upper (s : string) : string :=
  match s with
  | EmptyString => EmptyString
  | String c rest => String (upper_char c) (upper rest)
  end.

(** ** Python strings: the methods [Package] uses on paths *)

(** [s.startswith(c)] for a one-character [c] *)
Definition str_startswith (c : ascii) (s : string) : bool :=
  match s with
  | String c' _ => Ascii.eqb c' c
  | EmptyString => false
  end.

(** [s.partition(c)] for a one-character separator [c]: the part before the
    first [c], the separator if it was found, and the part after it. *)
Fixpoint str_partition (c : ascii) (s : string) : string * string * string :=
  match s with
  | EmptyString => ("", "", "")
  | String c' rest =>
      if Ascii.eqb c' c then ("", String c EmptyString, rest)
      else let '(before, sep, after) := str_partition c rest in
           (String c' before, sep, after)
  end.

(** [c in s] for a one-character [c] *)
Fixpoint str_contains (c : ascii) (s : string) : bool :=
  match s with
  | EmptyString => false
  | String c' rest => Ascii.eqb c' c || str_contains c rest
  end.

(** [s[1:]] *)
Definition str_tail (s : string) : string :=
  match s with
  | String _ rest => rest
  | EmptyString => ""
  end.

(** ** element.py: enumerations used by the model

    The enumeration module is not part of the sources at hand; the members
    are the ones element.py and writer.py name. *)

Inductive IdentifiableSubTypes : Set :=
  | ABSTRACT_IMPLEMENTATION_DATA_TYPE
  | APPLICATION_ARRAY_DATA_TYPE
  | APPLICATION_ASSOC_MAP_DATA_TYPE
  | APPLICATION_COMPOSITE_DATA_TYPE
  | APPLICATION_DATA_TYPE
  | APPLICATION_DEFERRED_DATA_TYPE
  | APPLICATION_PRIMITIVE_DATA_TYPE
  | APPLICATION_RECORD_DATA_TYPE
  | AUTOSAR_DATA_TYPE
  | BSW_MODULE_ENTRY
  | COMPU_METHOD
  | CONSTANT_SPECIFICATION
  | DATA_CONSTR
  | IMPLEMENTATION_DATA_TYPE
  | PHYSICAL_DIMENSION
  | SW_ADDR_METHOD
  | SW_BASE_TYPE
  | UNIT.

#[global] Instance IdentifiableSubTypes_eq_dec : EqDecision IdentifiableSubTypes.
Proof. solve_decision. Defined.

Inductive ValueFormat : Set :=
  | DEFAULT
  | DECIMAL
  | HEXADECIMAL
  | BINARY
  | SCIENTIFIC.

Inductive IntervalType : Set :=
  | CLOSED
  | OPEN
  | INFINITE.

(** ** element.py: unit names *)

Inductive unit_name_part : Set :=
  | part_str (s : string)
  | part_Subscript (text : string)
  | part_Superscript (text : string).

Record SingleLanguageUnitNames : Set := mkSingleLanguageUnitNames {
  parts : list unit_name_part
}.

(** Iterating over a string gives its characters, each a string. *)
Definition characters (s : string) : list string :=
  map (fun c => String c EmptyString) (list_ascii_of_string s).

(** [SingleLanguageUnitNames(parts)] for a string: a string is iterable, so
    every character is appended as a part of its own. *)
Definition SingleLanguageUnitNames__init__ (s : string) : SingleLanguageUnitNames :=
  mkSingleLanguageUnitNames (map part_str (characters s)).

(** [SingleLanguageUnitNames.__str__] *)
Definition SingleLanguageUnitNames__str__ (n : SingleLanguageUnitNames) : outcome string :=
  (fix go (l : list unit_name_part) : outcome string :=
     match l with
     | [] => Return ""
     | part_str s :: rest => obind (go rest) (fun r => Return (s +:+ r))
     | part_Superscript text :: rest => obind (go rest) (fun r => Return ("^" +:+ text +:+ r))
     | part_Subscript _ :: _ => Raise ValueError
     end) (parts n).

(** ** element.py: references *)

(** The concrete reference classes. *)
Inductive ref_class : Set :=
  | CompuMethodRef
  | FunctionPtrSignatureRef
  | ImplementationDataTypeRef
  | SwAddrMethodRef
  | SwBaseTypeRef
  | DataConstraintRef
  | PhysicalDimensionRef
  | UnitRef
  | IndexDataTypeRef
  | ApplicationDataTypeRef
  | AutosarDataTypeRef
  | ConstantRef.

#[global] Instance ref_class_eq_dec : EqDecision ref_class.
Proof. solve_decision. Defined.

(** What the constructors in element.py pass as [value] of a reference: a
    path, which is a string, or, from [Unit.__init__], the display name
    the caller gave: [None] or unit names. *)
Inductive ref_value : Set :=
  | ref_path (s : string)
  | ref_None
  | ref_names (n : SingleLanguageUnitNames).

(** An instance of a subclass of [BaseRef]: its class and its two
    attributes.  The constructor does not look at [value]. *)
Record BaseRef : Set := mkBaseRef {
  ref_cls : ref_class;
  value : ref_value;
  dest : IdentifiableSubTypes
}.

(** [_accepted_subtypes], one override per class. *)
Definition _accepted_subtypes (c : ref_class) : list IdentifiableSubTypes :=
  match c with
  | CompuMethodRef => [COMPU_METHOD]
  | FunctionPtrSignatureRef => [BSW_MODULE_ENTRY]
  | ImplementationDataTypeRef => [IMPLEMENTATION_DATA_TYPE]
  | SwAddrMethodRef => [SW_ADDR_METHOD]
  | SwBaseTypeRef => [SW_BASE_TYPE]
  | DataConstraintRef => [DATA_CONSTR]
  | PhysicalDimensionRef => [PHYSICAL_DIMENSION]
  | UnitRef => [UNIT]
  | IndexDataTypeRef => [APPLICATION_PRIMITIVE_DATA_TYPE]
  | ApplicationDataTypeRef =>
      [APPLICATION_ARRAY_DATA_TYPE; APPLICATION_ASSOC_MAP_DATA_TYPE;
       APPLICATION_COMPOSITE_DATA_TYPE; APPLICATION_DATA_TYPE;
       APPLICATION_DEFERRED_DATA_TYPE; APPLICATION_PRIMITIVE_DATA_TYPE;
       APPLICATION_RECORD_DATA_TYPE]
  | AutosarDataTypeRef =>
      [ABSTRACT_IMPLEMENTATION_DATA_TYPE; APPLICATION_ARRAY_DATA_TYPE;
       APPLICATION_ASSOC_MAP_DATA_TYPE; APPLICATION_COMPOSITE_DATA_TYPE;
       APPLICATION_DATA_TYPE; APPLICATION_DEFERRED_DATA_TYPE;
       APPLICATION_PRIMITIVE_DATA_TYPE; APPLICATION_RECORD_DATA_TYPE;
       AUTOSAR_DATA_TYPE; IMPLEMENTATION_DATA_TYPE]
  | ConstantRef => [CONSTANT_SPECIFICATION]
  end.

(** [BaseRef.__init__(self, value, dest)], run on an instance of class [c]:
    [dest] is kept only if it is one of the accepted sub-types of [c]. *)
Definition BaseRef__init__ (c : ref_class) (v : ref_value) (d : IdentifiableSubTypes)
  : outcome BaseRef :=
  if bool_decide (d ∈ _accepted_subtypes c)
  then Return (mkBaseRef c v d)
  else Raise ValueError.

(** [BaseRef.__str__]: returns [self.value]; Python refuses a [__str__] that
    returns something other than a string. *)
Definition BaseRef__str__ (r : BaseRef) : outcome string :=
  match value r with
  | ref_path s => Return s
  | ref_None | ref_names _ => Raise TypeError
  end.

(** The constructors that take the path only and pass their own kind on. *)
Definition CompuMethodRef__init__ (v : ref_value) : outcome BaseRef :=
  BaseRef__init__ CompuMethodRef v COMPU_METHOD.
Definition FunctionPtrSignatureRef__init__ (v : ref_value) : outcome BaseRef :=
  BaseRef__init__ FunctionPtrSignatureRef v BSW_MODULE_ENTRY.
Definition ImplementationDataTypeRef__init__ (v : ref_value) : outcome BaseRef :=
  BaseRef__init__ ImplementationDataTypeRef v IMPLEMENTATION_DATA_TYPE.
Definition SwAddrMethodRef__init__ (v : ref_value) : outcome BaseRef :=
  BaseRef__init__ SwAddrMethodRef v SW_ADDR_METHOD.
Definition SwBaseTypeRef__init__ (v : ref_value) : outcome BaseRef :=
  BaseRef__init__ SwBaseTypeRef v SW_BASE_TYPE.
Definition DataConstraintRef__init__ (v : ref_value) : outcome BaseRef :=
  BaseRef__init__ DataConstraintRef v DATA_CONSTR.
Definition PhysicalDimensionRef__init__ (v : ref_value) : outcome BaseRef :=
  BaseRef__init__ PhysicalDimensionRef v PHYSICAL_DIMENSION.
Definition UnitRef__init__ (v : ref_value) : outcome BaseRef :=
  BaseRef__init__ UnitRef v UNIT.
Definition ConstantRef__init__ (v : ref_value) : outcome BaseRef :=
  BaseRef__init__ ConstantRef v CONSTANT_SPECIFICATION.
Definition IndexDataTypeRef__init__ (v : ref_value) : outcome BaseRef :=
  BaseRef__init__ IndexDataTypeRef v APPLICATION_PRIMITIVE_DATA_TYPE.
(** [ApplicationDataTypeRef] inherits [BaseRef.__init__] and takes the kind
    from its caller. *)
Definition ApplicationDataTypeRef__init__ (v : ref_value) (d : IdentifiableSubTypes)
  : outcome BaseRef :=
  BaseRef__init__ ApplicationDataTypeRef v d.

(** ** Python's conversions of numbers to text *)

(** The decimal digits of a natural number. *)
Definition digits (n : N) : string :=
  DecimalString.NilZero.string_of_uint (N.to_uint n).

(** [str(z)] for an [int] *)
Definition str_int (z : Z) : string :=
  DecimalString.NilZero.string_of_int (Z.to_int z).

(** [str(b)] for a [bool] *)
Definition str_bool (b : bool) : string := if b then "True" else "False".

Definition sign_text (negative : bool) : string := if negative then "-" else "".

(** [format(z, 'x')]: sign, then lower-case hexadecimal digits. *)
Definition format_x (z : Z) : string :=
  sign_text (z <? 0)
  +:+ HexadecimalString.NilZero.string_of_uint (N.to_hex_uint (Z.abs_N z)).

Fixpoint binary_digits (p : positive) (low : string) : string :=
  match p with
  | xH => String "1" low
  | xO q => binary_digits q (String "0" low)
  | xI q => binary_digits q (String "1" low)
  end.

(** [format(z, 'b')] *)
Definition format_b (z : Z) : string :=
  sign_text (z <? 0)
  +:+ match Z.abs_N z with
      | N0 => "0"
      | Npos p => binary_digits p ""
      end.

(** The integer nearest to [n / d], for [d > 0]; halves go to the even
    neighbour. *)
Definition div_half_even (n d : Z) : Z :=
  let q := n / d in
  let r := n mod d in
  match 2 * r ?= d with
  | Lt => q
  | Gt => q + 1
  | Eq => if Z.even q then q else q + 1
  end.

(** A non-negative rational number, numerator over a positive denominator. *)
Definition ratio : Set := (Z * Z)%type.

(** [float(z)] for a non-negative [int]: the nearest number with 53
    significant bits; [OverflowError] beyond the range of a float. *)
Definition float_of_nat_int (a : Z) : outcome ratio :=
  let bits := if a =? 0 then 0 else Z.log2 a + 1 in
  if bits <=? 53 then Return (a, 1)
  else
    let shift := bits - 53 in
    let v := div_half_even a (2 ^ shift) * 2 ^ shift in
    if v >=? 2 ^ 1024 then Raise OverflowError else Return (v, 1).

(** The float that a finite decimal [c * 10^q] denotes, [c > 0]: the
    nearest number [m * 2^e] with [m < 2^53] and [e >= -1074]. *)
Definition float_of_decimal (c : Z) (q : Z) : ratio :=
  let n := if q >=? 0 then c * 10 ^ q else c in
  let d := if q >=? 0 then 1 else 10 ^ (- q) in
  let l := Z.log2 n - Z.log2 d in
  let scaled_ge (k : Z) := if k >=? 0 then n >=? d * 2 ^ k else n * 2 ^ (- k) >=? d in
  let floor_log2 := if scaled_ge l then l else l - 1 in
  let e := Z.max (floor_log2 - 52) (-1074) in
  let m := if e >=? 0 then div_half_even n (d * 2 ^ e) else div_half_even (n * 2 ^ (- e)) d in
  if e >=? 0 then (m * 2 ^ e, 1) else (m, 2 ^ (- e)).

(** The decimal exponent of a positive rational: the [k] with
    [10^k <= n/d < 10^(k+1)].  [steps] bounds the search. *)
Fixpoint exponent_up (steps : nat) (n d k : Z) : Z :=
  match steps with
  | O => k
  | S steps' => if n <? d * 10 then k else exponent_up steps' n (d * 10) (k + 1)
  end.

Fixpoint exponent_down (steps : nat) (n d k : Z) : Z :=
  match steps with
  | O => k
  | S steps' => if n >=? d then k else exponent_down steps' (n * 10) d (k - 1)
  end.

Definition decimal_exponent (n d : Z) : Z :=
  if n >=? d then exponent_up 400 n d 0 else exponent_down 400 n d 0.

(** Exponent part of the [e] presentation: sign and at least two digits. *)
Definition exponent_text (k : Z) : string :=
  let a := Z.abs_N k in
  (if k <? 0 then "-" else "+") +:+ (if (a <? 10)%N then "0" else "") +:+ digits a.

(** [format(x, 'e')] for a non-negative number given exactly: one digit,
    a point, six digits, rounded half to even, and the exponent. *)
Definition format_e_ratio (x : ratio) : string :=
  let '(n, d) := x in
  if n =? 0 then "0.000000e+00"
  else
    let k := decimal_exponent n d in
    let m := if 6 - k >=? 0 then div_half_even (n * 10 ^ (6 - k)) d
             else div_half_even n (d * 10 ^ (k - 6)) in
    let '(m, k) := if m >=? 10 ^ 7 then (m / 10, k + 1) else (m, k) in
    let ds := digits (Z.to_N m) in
    match ds with
    | String lead frac => String lead ("." +:+ frac) +:+ "e" +:+ exponent_text k
    | EmptyString => ""
    end.

(** [format(z, 'e')] for an [int] *)
Definition format_e_int (z : Z) : outcome string :=
  obind (float_of_nat_int (Z.abs z)) (fun x =>
  Return (sign_text (z <? 0) +:+ format_e_ratio x)).

(** [format(f, 'e')] for a [float] *)
Definition format_e_float (f : pyfloat) : string :=
  match f with
  | F_inf negative => sign_text negative +:+ "inf"
  | F_nan => "nan"
  | F_finite r =>
      sign_text (_sign r)
      +:+ (if (_int r =? 0)%N then "0.000000e+00"
           else format_e_ratio (float_of_decimal (Z.of_N (_int r)) (_exp r)))
  end.

(** [format(v, 'x')], [format(v, 'b')] and [format(v, 'e')] for any value:
    the integer presentations exist for [int] only, the [e] presentation
    for [int] and [float]; [str] and [float] answer an unknown format code
    with [ValueError], the other types refuse any format with
    [TypeError]. *)
Definition format_integer (presentation : Z -> string) (v : pyval) : outcome string :=
  match v with
  | VInt z => Return (presentation z)
  | VBool b => Return (presentation (if b then 1 else 0))
  | VFloat _ | VStr _ => Raise ValueError
  | VNone | VList _ | VTuple _ | VObject _ => Raise TypeError
  end.

Definition format_e (v : pyval) : outcome string :=
  match v with
  | VInt z => format_e_int z
  | VBool b => format_e_int (if b then 1 else 0)
  | VFloat f => Return (format_e_float f)
  | VStr _ => Raise ValueError
  | VNone | VList _ | VTuple _ | VObject _ => Raise TypeError
  end.

(** ** [decimal.Decimal]

    The operations [_format_float] uses, under the default context:
    precision 28, rounding half to even, [InvalidOperation] trapped.  The
    exponent limits of the context ([Emax] 999999) are far from any
    exponent a float can have and are not modelled. *)

Definition prec : Z := 28.

(** [len(self._int)] *)
Definition ndigits (n : N) : Z := Z.of_nat (String.length (digits n)).

(** [self.adjusted()] *)
Definition adjusted (d : Decimal) : Z := _exp d + ndigits (_int d) - 1.

(** [self._rescale(0, ROUND_HALF_EVEN)] *)
Definition _rescale0 (d : Decimal) : Decimal :=
  if (_int d =? 0)%N then mkDecimal (_sign d) 0 0
  else if _exp d >=? 0 then mkDecimal (_sign d) (_int d * 10 ^ Z.to_N (_exp d)) 0
  else mkDecimal (_sign d) (Z.to_N (div_half_even (Z.of_N (_int d)) (10 ^ (- _exp d)))) 0.

(** [self.to_integral()] *)
Definition to_integral (d : Decimal) : Decimal :=
  if _exp d >=? 0 then d else _rescale0 d.

(** The coefficient with its sign, scaled to exponent [e], for [e] at most
    the exponent of [d]. *)
Definition scaled_to (e : Z) (d : Decimal) : Z :=
  (if _sign d then -1 else 1) * Z.of_N (_int d) * 10 ^ (_exp d - e).

(** [a == b]: the two denote the same number. *)
Definition Decimal_eq (a b : Decimal) : bool :=
  let e := Z.min (_exp a) (_exp b) in
  scaled_to e a =? scaled_to e b.

(** [self.quantize(Decimal(1))] *)
Definition quantize_1 (d : Decimal) : outcome Decimal :=
  if (_int d =? 0)%N then Return (mkDecimal (_sign d) 0 0)
  else if adjusted d - 0 + 1 >? prec then Raise InvalidOperation
  else
    let ans := _rescale0 d in
    if ndigits (_int ans) >? prec then Raise InvalidOperation else Return ans.

(** [self._fix(context)], on the precision: a coefficient of more than 28
    digits is rounded to 28. *)
Definition _fix (d : Decimal) : Decimal :=
  let extra := ndigits (_int d) - prec in
  if extra <=? 0 then d
  else
    let c := div_half_even (Z.of_N (_int d)) (10 ^ extra) in
    if c >=? 10 ^ prec then mkDecimal (_sign d) (Z.to_N (c / 10)) (_exp d + extra + 1)
    else mkDecimal (_sign d) (Z.to_N c) (_exp d + extra).

(** The loop of [normalize]: trailing zeros of the coefficient move into
    the exponent. *)
Fixpoint strip_zeros (steps : nat) (c : N) (e : Z) : N * Z :=
  match steps with
  | O => (c, e)
  | S steps' =>
      if (c mod 10 =? 0)%N then strip_zeros steps' (c / 10)%N (e + 1) else (c, e)
  end.

(** [self.normalize()] *)
Definition normalize (d : Decimal) : Decimal :=
  let dup := _fix d in
  if (_int dup =? 0)%N then mkDecimal (_sign dup) 0 0
  else
    let '(c, e) := strip_zeros (Z.to_nat (ndigits (_int dup))) (_int dup) (_exp dup) in
    mkDecimal (_sign dup) c e.

Definition zeros (n : Z) : string := String.concat "" (repeat "0" (Z.to_nat n)).

(** [str(d)], the scientific string of a decimal. *)
Definition Decimal__str__ (d : Decimal) : string :=
  let _int_digits := digits (_int d) in
  let len := ndigits (_int d) in
  let leftdigits := _exp d + len in
  let dotplace := if andb (_exp d <=? 0) (leftdigits >? -6) then leftdigits else 1 in
  let '(intpart, fracpart) :=
    if dotplace <=? 0 then ("0", "." +:+ zeros (- dotplace) +:+ _int_digits)
    else if dotplace >=? len then (_int_digits +:+ zeros (dotplace - len), "")
    else (substring 0 (Z.to_nat dotplace) _int_digits,
          "." +:+ substring (Z.to_nat dotplace) (Z.to_nat (len - dotplace)) _int_digits) in
  let exp :=
    if leftdigits =? dotplace then ""
    else "E" +:+ (if leftdigits - dotplace <? 0 then "-" else "+")
             +:+ digits (Z.abs_N (leftdigits - dotplace)) in
  sign_text (_sign d) +:+ intpart +:+ fracpart +:+ exp.

(** [bool(d)]: a decimal is false when it is zero. *)
Definition Decimal__bool__ (d : Decimal) : bool := negb (_int d =? 0)%N.

(** ** element.py: the wrapper for numerical values *)

(** [NumericalValue]: the number, an [int] or a [float] once validated, and
    the format it is to be written in. *)
Record NumericalValue : Type := mkNumericalValue {
  _value : pyval;
  value_format : ValueFormat
}.

(** ** writer.py: formatting of numbers *)

(** What callers pass as [content] to [_add_content]: a string, an [int],
    a [bool], or the [Decimal] that [_format_float] returns. *)
Inductive content : Set :=
  | content_str (s : string)
  | content_int (z : Z)
  | content_bool (b : bool)
  | content_Decimal (d : Decimal).

(** [_XMLWriter._format_float(value)].  The method is annotated as
    returning [str]; for a finite float it returns the [Decimal] it
    computed. *)
Definition _format_float (value : pyfloat) : outcome content :=
  match value with
  | F_inf negative => Return (content_str (if negative then "-INF" else "INF"))
  | F_nan => Return (content_str "NaN")
  | F_finite tmp =>
      if Decimal_eq tmp (to_integral tmp)
      then obind (quantize_1 tmp) (fun d => Return (content_Decimal d))
      else Return (content_Decimal (normalize tmp))
  end.

(** [_XMLWriter._format_boolean(value)] *)
Definition _format_boolean (value : pyval) : outcome string :=
  match value with
  | VBool b => Return (if b then "true" else "false")
  | _ => Raise AssertionError
  end.

(** What [_format_number] is called with: a plain value or a wrapper. *)
Inductive number_arg : Type :=
  | plain (v : pyval)
  | wrapped (n : NumericalValue).

(** The branches of [_format_number] for [int] and [float], and its
    refusal of any other plain value. *)
Definition _format_number_plain (v : pyval) : outcome content :=
  match v with
  | VInt z => Return (content_str (str_int z))
  | VBool b => Return (content_str (str_bool b))
  | VFloat f => _format_float f
  | _ => Raise TypeError
  end.

(** [_XMLWriter._format_numerical_value(number)].  For the default and the
    decimal format the method hands [number.value] to [_format_number]; a
    [NumericalValue] holds an [int] or a [float], never another wrapper, so
    that call takes the plain branches. *)
Definition _format_numerical_value (number : NumericalValue) : outcome content :=
  match value_format number with
  | DEFAULT | DECIMAL => _format_number_plain (_value number)
  | HEXADECIMAL =>
      obind (format_integer format_x (_value number)) (fun s =>
      Return (content_str ("0x" +:+ s)))
  | BINARY =>
      obind (format_integer format_b (_value number)) (fun s =>
      Return (content_str ("0b" +:+ s)))
  | SCIENTIFIC =>
      obind (format_e (_value number)) (fun s => Return (content_str s))
  end.

(** [_XMLWriter._format_number(number)] *)
Definition _format_number (number : number_arg) : outcome content :=
  match number with
  | plain v => _format_number_plain v
  | wrapped n => _format_numerical_value n
  end.

(** How a [content] reads inside an f-string, and whether it counts as
    true in [if content:]. *)
Definition content_text (c : content) : string :=
  match c with
  | content_str s => s
  | content_int z => str_int z
  | content_bool b => str_bool b
  | content_Decimal d => Decimal__str__ d
  end.

Definition content_truth (c : content) : bool :=
  match c with
  | content_str s => negb (String.eqb s "")
  | content_int z => negb (z =? 0)
  | content_bool b => b
  | content_Decimal d => Decimal__bool__ d
  end.

(** ** writer.py: the calls a writer function makes

    Every [_write_*] method of the writer works through the same few
    methods of [_XMLWriter].  They are listed here, ahead of the writer
    itself, because objects of classes that are not modelled further are
    represented by the calls their writer makes. *)

(** [TupleList]: attribute names and values. *)
Definition TupleList : Type := list (string * string).

Inductive call : Type :=
  | call_add_line (text : string)
  | call_add_inline_text (text : string)
  | call_add_child (tag : string) (attr : option TupleList)
  | call_leave_child
  | call_begin_line (tag : string) (attr : option TupleList)
  | call_end_line (tag : string)
  | call_add_content (tag : string) (c : content) (attr : option TupleList) (inline : bool)
  | call_raise (e : exn).

(** An object of a class whose attributes are not modelled: the name of its
    class, and the calls that the writer function of that class makes for
    it, in order. *)
Record foreign : Type := mkForeign {
  foreign_class : string;
  foreign_calls : list call
}.

(** ** element.py: value specifications *)

Inductive ValueSpecification : Type :=
  | TextValueSpecification (label : option string) (value : option string)
  | NumericalValueSpecification (label : option string) (value : pyval)
  | NotAvailableValueSpecification (label : option string) (default_pattern : pyval)
      (default_pattern_format : ValueFormat)
  | ArrayValueSpecification (label : option string) (elements : list ValueSpecification)
  | RecordValueSpecification (label : option string) (fields : list ValueSpecification)
  | ApplicationValueSpecification (label : option string) (category : option string)
      (sw_axis_conts : list foreign) (sw_value_cont : option foreign)
  | ConstantReference (label : option string) (constant_ref : option BaseRef).

(** [NotAvailableValueSpecification.__init__(label, default_pattern)] *)
Definition NotAvailableValueSpecification__init__ (label : option string)
    (default_pattern : pyval) : outcome ValueSpecification :=
  match int_value default_pattern with
  | Some z =>
      if z <? 0 then Raise ValueError
      else Return (NotAvailableValueSpecification label default_pattern DEFAULT)
  | None => Return (NotAvailableValueSpecification label default_pattern DEFAULT)
  end.

(** The loop of [_make_array_value_spefication] and of
    [_make_record_value_spefication]: the values are built one after the
    other, and the first one that raises ends the loop. *)
Definition make_each (make_value : pyval -> outcome ValueSpecification)
  : list pyval -> outcome (list ValueSpecification) :=
  fix go (values : list pyval) :=
    match values with
    | [] => Return []
    | v :: rest =>
        obind (make_value v) (fun e =>
        obind (go rest) (fun es => Return (e :: es)))
    end.

Definition _make_array_value_spefication
    (make_value : pyval -> outcome ValueSpecification)
    (label : option string) (values : list pyval) : outcome ValueSpecification :=
  obind (make_each make_value values) (fun elements =>
  Return (ArrayValueSpecification label elements)).

Definition _make_record_value_spefication
    (make_value : pyval -> outcome ValueSpecification)
    (label : option string) (values : list pyval) : outcome ValueSpecification :=
  obind (make_each make_value values) (fun fields =>
  Return (RecordValueSpecification label fields)).

(** [ValueSpecification._make_from_args(label, value, default_pattern)].
    The method reaches [make_value] again through the two loops above;
    [make_value] is passed in for that. *)
Definition _make_from_args (make_value : pyval -> outcome ValueSpecification)
    (label : option string) (value : pyval) (default_pattern : pyval)
  : outcome ValueSpecification :=
  match value with
  | VInt _ | VBool _ | VFloat _ => Return (NumericalValueSpecification label value)
  | VStr s => Return (TextValueSpecification label (Some s))
  | VNone => NotAvailableValueSpecification__init__ label default_pattern
  | VList items =>
      match items with
      | [] => Raise IndexError
      | VStr tag :: rest =>
          if bool_decide (upper tag ∈ ["A"; "ARRAY"])
          then _make_array_value_spefication make_value label rest
          else if bool_decide (upper tag ∈ ["R"; "RECORD"])
          then _make_record_value_spefication make_value label rest
          else Raise ValueError
      | _ :: _ => Raise TypeError
      end
  | VTuple _ | VObject _ => Raise TypeError
  end.

(** [ValueSpecification.make_value(data)] *)
Fixpoint make_value (data : pyval) : outcome ValueSpecification :=
  match data with
  | VTuple items =>
      match items with
      | [] => Raise IndexError
      | VStr label :: rest =>
          match rest with
          | [value] => _make_from_args make_value (Some label) value VNone
          | [value; default_pattern] =>
              _make_from_args make_value (Some label) value default_pattern
          | _ => Raise ValueError
          end
      | _ :: _ => Raise TypeError
      end
  | _ => _make_from_args make_value None data VNone
  end.

(** ** element.py: attribute groups, units

    From here on objects are values: a snapshot of an object with the
    objects it owns below it, which is what the writer walks.  Objects of
    the documentation classes (long names, descriptions, documentation
    blocks, annotations) are [foreign]. *)

(** [Identifiable], with the attributes of [Referrable] and
    [MultiLanguageReferrable] that the writer reads. *)
Record Identifiable : Type := mkIdentifiable {
  name : string;
  long_name : option foreign;
  desc : option foreign;
  category : option string;
  admin_data : option foreign;
  introduction : option foreign;
  annotations : option (list foreign);
  uuid : option string
}.

(** [Identifiable.__init__(name)], without keyword arguments. *)
Definition Identifiable__init__ (n : string) : Identifiable :=
  mkIdentifiable n None None None None None None None.

(** An argument that may be [None], a string, an instance of the class
    expected, or something else. *)
Inductive arg (T : Type) : Type :=
  | arg_None
  | arg_str (s : string)
  | arg_instance (x : T)
  | arg_other (v : pyval).
Arguments arg_None {T}.
Arguments arg_str {T} s.
Arguments arg_instance {T} x.
Arguments arg_other {T} v.

Record Unit : Type := mkUnit {
  Unit_identifiable : Identifiable;
  display_name : option SingleLanguageUnitNames;
  physical_dimension_ref : option BaseRef;
  factor : option pyfloat;
  offset : option pyfloat
}.

(** [Unit.__init__(name, display_name, factor, offset,
    physical_dimension_ref)], without further keyword arguments; [factor]
    and [offset] are floats or [None], as annotated, so that the cast to
    [float] changes nothing.  The first match also keeps what the caller
    gave as [display_name], which is what the second passes on. *)
Definition Unit__init__ (n : string) (display_name : arg SingleLanguageUnitNames)
    (factor offset : option pyfloat) (physical_dimension_ref : arg BaseRef)
  : outcome Unit :=
  obind (match display_name with
         | arg_None => Return (None, ref_None)
         | arg_str s => Return (Some (SingleLanguageUnitNames__init__ s), ref_path s)
         | arg_instance names => Return (Some names, ref_names names)
         | arg_other _ => Raise TypeError
         end) (fun '(self_display_name, display_name_given) =>
  obind (match physical_dimension_ref with
         | arg_None => Return None
         | arg_str _ =>
             obind (PhysicalDimensionRef__init__ display_name_given)
                   (fun r => Return (Some r))
         | arg_instance r =>
             if decide (ref_cls r = PhysicalDimensionRef) then Return (Some r)
             else Raise TypeError
         | arg_other _ => Raise TypeError
         end) (fun self_physical_dimension_ref =>
  Return (mkUnit (Identifiable__init__ n) self_display_name
                 self_physical_dimension_ref factor offset))).

(** ** element.py: emptiness *)

(** What [is_empty] looks at in an attribute: whether it is a list, and
    then its length, or [None], or any other value. *)
Inductive attribute : Set :=
  | attr_list (len : nat)
  | attr_None
  | attr_value.

Definition attr_of_option {A : Type} (o : option A) : attribute :=
  match o with None => attr_None | Some _ => attr_value end.

Definition attr_of_list {A : Type} (l : list A) : attribute :=
  attr_list (length l).

Definition attr_of_pyval (v : pyval) : attribute :=
  match v with
  | VNone => attr_None
  | VList l => attr_list (length l)
  | _ => attr_value
  end.

Definition attribute_empty (a : attribute) : bool :=
  match a with
  | attr_list len => Nat.eqb len 0
  | attr_None => true
  | attr_value => false
  end.

(** [ARObject.is_empty], on [vars(self)]: the attributes by name. *)
Definition ARObject_is_empty (vars : list (string * attribute)) : bool :=
  forallb (fun kv => attribute_empty (snd kv)) vars.

(** [ARObject.is_empty_with_ignore(ignore_set)] *)
Definition ARObject_is_empty_with_ignore (vars : list (string * attribute))
    (ignore_set : list string) : bool :=
  forallb (fun kv => orb (bool_decide (fst kv ∈ ignore_set)) (attribute_empty (snd kv))) vars.

(** ** element.py: computation methods, constants, packages *)

(** A coefficient: [int | float], as annotated. *)
Inductive coefficient : Set :=
  | coefficient_int (z : Z)
  | coefficient_float (f : pyfloat).

(** [CompuRational]: the two attributes are tuples or [None]. *)
Record CompuRational : Set := mkCompuRational {
  numerator : option (list coefficient);
  denominator : option (list coefficient)
}.

Record CompuConst : Type := mkCompuConst {
  const_value : pyval
}.

Inductive scale_content : Type :=
  | scale_CompuConst (c : CompuConst)
  | scale_CompuRational (r : CompuRational).

Record CompuScale : Type := mkCompuScale {
  content_of_scale : option scale_content;
  lower_limit : pyval;
  upper_limit : pyval;
  scale_label : option string;
  symbol : option string;
  scale_desc : option foreign;
  mask : option Z;
  inverse_value : option CompuConst;
  lower_limit_type : option IntervalType;
  upper_limit_type : option IntervalType
}.

Record Computation : Type := mkComputation {
  compu_scales : option (list CompuScale);
  default_value : option CompuConst
}.

(** [Computation.__init__()] with the defaults of its two arguments. *)
Definition Computation__init__ : Computation := mkComputation None None.

(** [CompuScale.__init__(content, lower_limit, upper_limit, label)], with
    the defaults of the other parameters: the two interval types are
    [CLOSED]. *)
Definition CompuScale__init__ (content : option scale_content)
    (lower_limit upper_limit : pyval) (label : option string) : CompuScale :=
  mkCompuScale content lower_limit upper_limit label None None None None
    (Some CLOSED) (Some CLOSED).

(** [Computation.__init__(compu_scales, default_value)]: a default value
    that is a [CompuConst] is kept, an [int], [float] or [str] is wrapped,
    and anything else is dropped without a word. *)
Definition Computation__init__with (compu_scales : option (list CompuScale))
    (default_value : arg CompuConst) : Computation :=
  mkComputation compu_scales
    match default_value with
    | arg_instance c => Some c
    | arg_str s => Some (mkCompuConst (VStr s))
    | arg_other (VInt _ as v) | arg_other (VBool _ as v) | arg_other (VFloat _ as v) =>
        Some (mkCompuConst v)
    | arg_other _ | arg_None => None
    end.

(** The loop of [Computation.make_value_table], from index [i] on. *)
Fixpoint make_value_table_scales (i : Z) (elements : list pyval) (auto_label : bool)
  : outcome (list CompuScale) :=
  match elements with
  | [] => Return []
  | elem :: rest =>
      obind (match elem with
             | VStr _ => Return (VInt i, VInt i, elem)
             | VTuple [a; b] => Return (a, a, b)
             | VTuple [a; b; c] => Return (a, b, c)
             | VTuple _ => Raise ValueError
             | _ => Raise TypeError
             end) (fun '(lower_limit, upper_limit, value) =>
      let label := match value with
                   | VStr s => if auto_label then Some s else None
                   | _ => None
                   end in
      obind (make_value_table_scales (i + 1) rest auto_label) (fun compu_scales =>
      Return (CompuScale__init__ (Some (scale_CompuConst (mkCompuConst value)))
                lower_limit upper_limit label :: compu_scales)))
  end.

(** [Computation.make_value_table(elements, default_value, auto_label)] *)
Definition make_value_table (elements : list pyval) (default_value : arg CompuConst)
    (auto_label : bool) : outcome Computation :=
  obind (make_value_table_scales 0 elements auto_label) (fun compu_scales =>
  Return (Computation__init__with (Some compu_scales) default_value)).

Record CompuMethod : Type := mkCompuMethod {
  CompuMethod_identifiable : Identifiable;
  int_to_phys : option Computation;
  phys_to_int : option Computation;
  unit_ref : option BaseRef;
  display_format : option string
}.

Record ConstantSpecification : Type := mkConstantSpecification {
  ConstantSpecification_identifiable : Identifiable;
  constant_value : option ValueSpecification
}.

(** What the [elements] list of a package holds. *)
Inductive element : Type :=
  | element_CompuMethod (e : CompuMethod)
  | element_Unit (e : Unit)
  | element_ConstantSpecification (e : ConstantSpecification)
  | element_foreign (e : foreign).

Inductive Package : Type :=
  | mkPackage (identifiable : Identifiable) (elements : list element)
      (packages : list Package).

Definition Package_identifiable (p : Package) : Identifiable :=
  match p with mkPackage i _ _ => i end.
Definition elements (p : Package) : list element :=
  match p with mkPackage _ es _ => es end.
Definition packages (p : Package) : list Package :=
  match p with mkPackage _ _ ps => ps end.

(** Modelled from the spec: the [Document] class, which is not part of the
    sources at hand: "an ordered sequence of root [Package]s and a
    schema-file identifier string". *)
Record Document : Type := mkDocument {
  document_packages : list Package;
  schema_file : string
}.

(** The objects the single-element entry points of the writer are called
    with. *)
Inductive ar_object : Type :=
  | object_Package (p : Package)
  | object_element (e : element)
  | object_ValueSpecification (v : ValueSpecification)
  | object_Computation (c : Computation)
  | object_CompuScale (c : CompuScale)
  | object_CompuRational (c : CompuRational)
  | object_SingleLanguageUnitNames (n : SingleLanguageUnitNames)
  | object_BaseRef (r : BaseRef).

(** [vars(self)] of the classes whose writer asks [is_empty]. *)
Definition CompuRational_vars (c : CompuRational) : list (string * attribute) :=
  [("numerator", attr_of_option (numerator c));
   ("denominator", attr_of_option (denominator c))].

Definition CompuScale_vars (c : CompuScale) : list (string * attribute) :=
  [("content", attr_of_option (content_of_scale c));
   ("lower_limit", attr_of_pyval (lower_limit c));
   ("upper_limit", attr_of_pyval (upper_limit c));
   ("label", attr_of_option (scale_label c));
   ("symbol", attr_of_option (symbol c));
   ("desc", attr_of_option (scale_desc c));
   ("mask", attr_of_option (mask c));
   ("inverse_value", attr_of_option (inverse_value c));
   ("lower_limit_type", attr_of_option (lower_limit_type c));
   ("upper_limit_type", attr_of_option (upper_limit_type c))].

Definition Computation_vars (c : Computation) : list (string * attribute) :=
  [("compu_scales", match compu_scales c with
                    | None => attr_None
                    | Some l => attr_of_list l
                    end);
   ("default_value", attr_of_option (default_value c))].

Definition ValueSpecification_vars (v : ValueSpecification) : list (string * attribute) :=
  match v with
  | TextValueSpecification label value =>
      [("label", attr_of_option label); ("value", attr_of_option value)]
  | NumericalValueSpecification label value =>
      [("label", attr_of_option label); ("value", attr_of_pyval value)]
  | NotAvailableValueSpecification label default_pattern _ =>
      [("label", attr_of_option label);
       ("default_pattern", attr_of_pyval default_pattern);
       ("default_pattern_format", attr_value)]
  | ArrayValueSpecification label elements =>
      [("label", attr_of_option label); ("elements", attr_of_list elements)]
  | RecordValueSpecification label fields =>
      [("label", attr_of_option label); ("fields", attr_of_list fields)]
  | ApplicationValueSpecification label category sw_axis_conts sw_value_cont =>
      [("label", attr_of_option label); ("category", attr_of_option category);
       ("sw_axis_conts", attr_of_list sw_axis_conts);
       ("sw_value_cont", attr_of_option sw_value_cont)]
  | ConstantReference label constant_ref =>
      [("constant_ref", attr_of_option constant_ref); ("label", attr_of_option label)]
  end.

(** ** element.py: limits *)

(** [a < b], [a <= b] and so on between two values: integers compare as
    numbers, and [None] compares with no value of a built-in type.
    Comparisons with a float, between other values, or with an object
    of a class of its own are not modelled. *)
Definition compare_values (op : Z -> Z -> bool) (a b : pyval) : outcome bool :=
  match int_value a, int_value b with
  | Some x, Some y => Return (op x y)
  | _, _ =>
      match a, b with
      | VObject _, _ | _, VObject _ => Raise NotModelled
      | VNone, _ | _, VNone => Raise TypeError
      | _, _ => Raise NotModelled
      end
  end.

Module LimitObject.

(** [LimitObject]: the four attributes. *)
Record LimitObject : Type := mkLimitObject {
  lower_limit : pyval;
  upper_limit : pyval;
  lower_limit_type : option IntervalType;
  upper_limit_type : option IntervalType
}.

(** [LimitObject.__init__()] with the defaults of its four arguments. *)
Definition __init__ : LimitObject := mkLimitObject VNone VNone (Some CLOSED) (Some CLOSED).

Definition vars (self : LimitObject) : list (string * attribute) :=
  [("lower_limit", attr_of_pyval (lower_limit self));
   ("upper_limit", attr_of_pyval (upper_limit self));
   ("lower_limit_type", attr_of_option (lower_limit_type self));
   ("upper_limit_type", attr_of_option (upper_limit_type self))].

(** [LimitObject.is_empty], which overrides the one of [ARObject] *)
Definition is_empty (self : LimitObject) : bool :=
  ARObject_is_empty_with_ignore (vars self) ["lower_limit_type"; "upper_limit_type"].

(** [LimitObject.check_value(value)] *)
Definition check_value (self : LimitObject) (value : pyval) : outcome bool :=
  obind (match lower_limit_type self with
         | Some CLOSED => compare_values Z.ltb value (lower_limit self)
         | _ => compare_values Z.leb value (lower_limit self)
         end) (fun below =>
  if below then Return false
  else
    obind (match upper_limit_type self with
           | Some CLOSED => compare_values Z.gtb value (upper_limit self)
           | _ => compare_values Z.geb value (upper_limit self)
           end) (fun above =>
    if above then Return false else Return true)).

End LimitObject.

(** ** The enumeration tokens *)

(** Modelled from the spec: [enum_to_xml] of the enumeration module, which
    is not part of the sources at hand: "an enumeration-to-XML-token
    mapping ... to their schema-mandated string tokens".  The token of a
    member is its name, with hyphens where the name has underscores. *)
Definition enum_to_xml_IntervalType (t : IntervalType) : string :=
  match t with
  | CLOSED => "CLOSED"
  | OPEN => "OPEN"
  | INFINITE => "INFINITE"
  end.

Definition enum_to_xml_IdentifiableSubTypes (t : IdentifiableSubTypes) : string :=
  match t with
  | ABSTRACT_IMPLEMENTATION_DATA_TYPE => "ABSTRACT-IMPLEMENTATION-DATA-TYPE"
  | APPLICATION_ARRAY_DATA_TYPE => "APPLICATION-ARRAY-DATA-TYPE"
  | APPLICATION_ASSOC_MAP_DATA_TYPE => "APPLICATION-ASSOC-MAP-DATA-TYPE"
  | APPLICATION_COMPOSITE_DATA_TYPE => "APPLICATION-COMPOSITE-DATA-TYPE"
  | APPLICATION_DATA_TYPE => "APPLICATION-DATA-TYPE"
  | APPLICATION_DEFERRED_DATA_TYPE => "APPLICATION-DEFERRED-DATA-TYPE"
  | APPLICATION_PRIMITIVE_DATA_TYPE => "APPLICATION-PRIMITIVE-DATA-TYPE"
  | APPLICATION_RECORD_DATA_TYPE => "APPLICATION-RECORD-DATA-TYPE"
  | AUTOSAR_DATA_TYPE => "AUTOSAR-DATA-TYPE"
  | BSW_MODULE_ENTRY => "BSW-MODULE-ENTRY"
  | COMPU_METHOD => "COMPU-METHOD"
  | CONSTANT_SPECIFICATION => "CONSTANT-SPECIFICATION"
  | DATA_CONSTR => "DATA-CONSTR"
  | IMPLEMENTATION_DATA_TYPE => "IMPLEMENTATION-DATA-TYPE"
  | PHYSICAL_DIMENSION => "PHYSICAL-DIMENSION"
  | SW_ADDR_METHOD => "SW-ADDR-METHOD"
  | SW_BASE_TYPE => "SW-BASE-TYPE"
  | UNIT => "UNIT"
  end.

(** ** writer.py: [_XMLWriter] *)

(** The text stream behind [self.fh]: a [StringIO] or a file opened for
    writing, with what has been written to it and whether it has been
    closed. *)
Record stream : Set := mkStream {
  in_memory : bool;
  written : string;
  closed : bool
}.

Record _XMLWriter : Set := mk_XMLWriter {
  file_path : option string;
  fh : option stream;
  indentation_char : string;
  indentation_step : Z;
  indentation_level : Z;
  indentation_str : string;
  tag_stack : list string;
  line_number : Z
}.

(** [_XMLWriter.__init__(indentation_step)] *)
Definition _XMLWriter__init__ (step : Z) : _XMLWriter :=
  mk_XMLWriter None None " " step 0 "" [] 0.

(** [Writer.__init__()]: the dispatch tables are the definitions
    [switcher_collectable] and the like further down. *)
Definition Writer__init__ : _XMLWriter := _XMLWriter__init__ 2.

(** The methods of the writer: they read and change the writer, and return
    or raise. *)
Definition W (A : Type) : Type := _XMLWriter -> outcome A * _XMLWriter.

Definition W_ret {A : Type} (a : A) : W A := fun w => (Return a, w).
Definition W_raise {A : Type} (e : exn) : W A := fun w => (Raise e, w).
Definition W_bind {A B : Type} (m : W A) (k : A -> W B) : W B :=
  fun w => match m w with
           | (Return a, w') => k a w'
           | (Raise e, w') => (Raise e, w')
           end.

#[global] Instance W_mret : MRet W := @W_ret.
#[global] Instance W_mbind : MBind W := fun A B k m => W_bind m k.

(** A value computed without the writer, which may have raised. *)
Definition W_lift {A : Type} (o : outcome A) : W A := fun w => (o, w).

(** [for x in l: body(x)] *)
Fixpoint for_each {A : Type} (body : A -> W unit) (l : list A) : W unit :=
  match l with
  | [] => W_ret tt
  | x :: rest => body x;; for_each body rest
  end.

Definition set_fh (f : option stream) (w : _XMLWriter) : _XMLWriter :=
  mk_XMLWriter (file_path w) f (indentation_char w) (indentation_step w)
    (indentation_level w) (indentation_str w) (tag_stack w) (line_number w).

Definition set_file_path (path : option string) (w : _XMLWriter) : _XMLWriter :=
  mk_XMLWriter path (fh w) (indentation_char w) (indentation_step w)
    (indentation_level w) (indentation_str w) (tag_stack w) (line_number w).

Definition set_indentation (level : Z) (str : string) (w : _XMLWriter) : _XMLWriter :=
  mk_XMLWriter (file_path w) (fh w) (indentation_char w) (indentation_step w)
    level str (tag_stack w) (line_number w).

Definition set_tag_stack (stack : list string) (w : _XMLWriter) : _XMLWriter :=
  mk_XMLWriter (file_path w) (fh w) (indentation_char w) (indentation_step w)
    (indentation_level w) (indentation_str w) stack (line_number w).

Definition set_line_number (n : Z) (w : _XMLWriter) : _XMLWriter :=
  mk_XMLWriter (file_path w) (fh w) (indentation_char w) (indentation_step w)
    (indentation_level w) (indentation_str w) (tag_stack w) n.

(** [s * n] for a string [s] *)
Definition repeat_string (s : string) (n : Z) : string :=
  String.concat "" (repeat s (Z.to_nat n)).

Definition newline : string := String (ascii_of_nat 10) EmptyString.

(** [self.fh.write(text)]: there has to be a stream, and an open one. *)
Definition fh_write (text : string) : W unit :=
  fun w =>
    match fh w with
    | None => (Raise AttributeError, w)
    | Some st =>
        if closed st then (Raise ValueError, w)
        else (Return tt, set_fh (Some (mkStream (in_memory st) (written st +:+ text) false)) w)
    end.

(** [self.fh.getvalue()], which only a [StringIO] has. *)
Definition fh_getvalue : W string :=
  fun w =>
    match fh w with
    | None => (Raise AttributeError, w)
    | Some st =>
        if in_memory st
        then if closed st then (Raise ValueError, w) else (Return (written st), w)
        else (Raise AttributeError, w)
    end.

(** [_str_open] *)
Definition _str_open : W unit :=
  fun w =>
    (Return tt,
     mk_XMLWriter (file_path w) (Some (mkStream true "" false)) (indentation_char w)
       (indentation_step w) 0 "" [] 1).

(** [_open(file_path)].  Opening the file is taken to succeed: the stream
    is a new, empty, open one. *)
Definition _open (path : string) : W unit :=
  fun w =>
    (Return tt,
     mk_XMLWriter (Some path) (Some (mkStream false "" false)) (indentation_char w)
       (indentation_step w) 0 "" [] 1).

(** [_close] *)
Definition _close : W unit :=
  fun w =>
    match fh w with
    | None => (Raise AttributeError, w)
    | Some st => (Return tt, set_fh (Some (mkStream (in_memory st) (written st) true)) w)
    end.

(** [_indent] *)
Definition _indent : W unit :=
  fun w =>
    let level := indentation_level w + 1 in
    (Return tt,
     set_indentation level
       (repeat_string (indentation_char w) (level * indentation_step w)) w).

(** [_dedent] *)
Definition _dedent : W unit :=
  fun w =>
    let level := indentation_level w - 1 in
    (Return tt,
     set_indentation level
       (if level =? 0 then ""
        else repeat_string (indentation_char w) (level * indentation_step w)) w).

(** The first lines of [_add_line] and of [_begin_line]: a line break
    unless this is the first line, the line count, the indentation. *)
Definition start_line : W unit :=
  n ← (fun w => (Return (line_number w), w));
  (if n >? 1 then fh_write newline else W_ret tt);;
  (fun w => (Return tt, set_line_number (line_number w + 1) w));;
  s ← (fun w => (Return (indentation_str w), w));
  fh_write s.

(** [_add_line(text)] *)
Definition _add_line (text : string) : W unit :=
  start_line;; fh_write text.

(** [_add_inline_text(text)] *)
Definition _add_inline_text (text : string) : W unit := fh_write text.

(** The double-quote character. *)
Definition quote : string := String (ascii_of_nat 34) EmptyString.

(** [_attr_to_str(attr)] *)
Definition _attr_to_str (attr : TupleList) : string :=
  join " " (map (fun elem => fst elem +:+ "=" +:+ quote +:+ snd elem +:+ quote) attr).

(** Whether [attr] counts as true: neither [None] nor empty. *)
Definition attr_truth (attr : option TupleList) : bool :=
  match attr with
  | Some (_ :: _) => true
  | _ => false
  end.

Definition attr_text (attr : option TupleList) : string :=
  match attr with
  | Some l => _attr_to_str l
  | None => ""
  end.

(** [_add_child(tag, attr)] *)
Definition _add_child (tag : string) (attr : option TupleList) : W unit :=
  (if attr_truth attr
   then _add_line ("<" +:+ tag +:+ " " +:+ attr_text attr +:+ ">")
   else _add_line ("<" +:+ tag +:+ ">"));;
  (fun w => (Return tt, set_tag_stack (tag_stack w ++ [tag])%list w));;
  _indent.

(** [self.tag_stack.pop()] *)
Definition tag_stack_pop : W string :=
  fun w =>
    match last (tag_stack w) with
    | None => (Raise IndexError, w)
    | Some tag => (Return tag, set_tag_stack (removelast (tag_stack w)) w)
    end.

(** [_leave_child()] *)
Definition _leave_child : W unit :=
  tag ← tag_stack_pop;
  _dedent;;
  _add_line ("</" +:+ tag +:+ ">").

(** [_begin_line(tag, attr)] *)
Definition _begin_line (tag : string) (attr : option TupleList) : W unit :=
  start_line;;
  _add_inline_text
    (if attr_truth attr then "<" +:+ tag +:+ " " +:+ attr_text attr +:+ ">"
     else "<" +:+ tag +:+ ">").

(** [_end_line(tag)] *)
Definition _end_line (tag : string) : W unit :=
  fh_write ("</" +:+ tag +:+ ">").

(** [_add_content(tag, content, attr, inline)] *)
Definition _add_content (tag : string) (c : content) (attr : option TupleList)
    (inline : bool) : W unit :=
  let text :=
    if attr_truth attr then
      if content_truth c
      then "<" +:+ tag +:+ " " +:+ attr_text attr +:+ ">" +:+ content_text c
           +:+ "</" +:+ tag +:+ ">"
      else "<" +:+ tag +:+ " " +:+ attr_text attr +:+ "/>"
    else
      if content_truth c
      then "<" +:+ tag +:+ ">" +:+ content_text c +:+ "</" +:+ tag +:+ ">"
      else "<" +:+ tag +:+ "/>" in
  if inline then _add_inline_text text else _add_line text.

(** [_add_content(tag)], with the defaults of the other parameters. *)
Definition _add_empty_content (tag : string) : W unit :=
  _add_content tag (content_str "") None false.

(** Making one of the calls listed at the beginning. *)
Definition perform (c : call) : W unit :=
  match c with
  | call_add_line text => _add_line text
  | call_add_inline_text text => _add_inline_text text
  | call_add_child tag attr => _add_child tag attr
  | call_leave_child => _leave_child
  | call_begin_line tag attr => _begin_line tag attr
  | call_end_line tag => _end_line tag
  | call_add_content tag c attr inline => _add_content tag c attr inline
  | call_raise e => W_raise e
  end.

(** The writer function of a class that is not modelled, run on an object
    of that class. *)
Definition write_foreign (f : foreign) : W unit :=
  for_each perform (foreign_calls f).

(** ** writer.py: [Writer], the attribute groups *)

(** [_write_referrable(elem)] *)
Definition _write_referrable (elem : Identifiable) : W unit :=
  _add_content "SHORT-NAME" (content_str (name elem)) None false.

(** [_write_multilanguage_referrable(elem)] *)
Definition _write_multilanguage_referrable (elem : Identifiable) : W unit :=
  match long_name elem with
  | Some n => write_foreign n
  | None => W_ret tt
  end.

(** [_collect_identifiable_attributes(elem, attr)]: the list [attr] of the
    caller, extended in place. *)
Definition _collect_identifiable_attributes (elem : Identifiable) (attr : TupleList)
  : TupleList :=
  match uuid elem with
  | Some u => (attr ++ [("UUID", u)])%list
  | None => attr
  end.

(** [_write_admin_data(data)]: the method has no body. *)
Definition _write_admin_data (data : foreign) : W unit := W_ret tt.

(** [_write_annotations(elements)] *)
Definition _write_annotations (elements : list foreign) : W unit :=
  match elements with
  | _ :: _ =>
      for_each (fun elem =>
        _add_child "ANNOTATIONS" None;;
        write_foreign elem;;
        _leave_child) elements
  | [] => _add_empty_content "ANNOTATIONS"
  end.

(** [_write_identifiable(elem)] *)
Definition _write_identifiable (elem : Identifiable) : W unit :=
  match desc elem with
  | Some d => write_foreign d
  | None => W_ret tt
  end;;
  match category elem with
  | Some c => if negb (String.eqb c "")
              then _add_content "CATEGORY" (content_str c) None false
              else W_ret tt
  | None => W_ret tt
  end;;
  match admin_data elem with
  | Some d => _write_admin_data d
  | None => W_ret tt
  end;;
  match introduction elem with
  | Some d => write_foreign d
  | None => W_ret tt
  end;;
  match annotations elem with
  | Some (x :: rest) => _write_annotations (x :: rest)
  | _ => W_ret tt
  end.

(** ** writer.py: references *)

(** [_collect_base_ref_attr(elem, attr)] *)
Definition _collect_base_ref_attr (elem : BaseRef) (attr : TupleList) : TupleList :=
  (attr ++ [("DEST", enum_to_xml_IdentifiableSubTypes (dest elem))])%list.

(** The writer functions for references: [assert isinstance(elem, C)], the
    [DEST] attribute, and [elem.value] as content of [tag].  [None] as
    content counts as false, like the empty string; unit names count as
    true and read as their [__str__] gives. *)
Definition write_ref (c : ref_class) (tag : string) (elem : BaseRef) : W unit :=
  if negb (bool_decide (ref_cls elem = c)) then W_raise AssertionError
  else
    let attr := _collect_base_ref_attr elem [] in
    match value elem with
    | ref_path s => _add_content tag (content_str s) (Some attr) false
    | ref_None => _add_content tag (content_str "") (Some attr) false
    | ref_names n =>
        s ← W_lift (SingleLanguageUnitNames__str__ n);
        _add_line ("<" +:+ tag +:+ " " +:+ _attr_to_str attr +:+ ">" +:+ s
                   +:+ "</" +:+ tag +:+ ">")
    end.

Definition _write_unit_ref : BaseRef -> W unit := write_ref UnitRef "UNIT-REF".
Definition _write_physical_dimension_ref : BaseRef -> W unit :=
  write_ref PhysicalDimensionRef "PHYSICAL-DIMENSION-REF".
Definition _write_sw_base_type_ref : BaseRef -> W unit :=
  write_ref SwBaseTypeRef "BASE-TYPE-REF".
Definition _write_application_data_type_ref (elem : BaseRef) (tag : string) : W unit :=
  write_ref ApplicationDataTypeRef tag elem.
Definition _write_constant_ref (elem : BaseRef) (tag : string) : W unit :=
  write_ref ConstantRef tag elem.

(** ** writer.py: units *)

(** [_write_subscript(elem, inline)], [_write_superscript(elem, inline)] *)
Definition _write_subscript (text : string) (inline : bool) : W unit :=
  _add_content "SUB" (content_str text) None inline.
Definition _write_superscript (text : string) (inline : bool) : W unit :=
  _add_content "SUP" (content_str text) None inline.

(** [_write_single_language_unit_names(elem, tag)] *)
Definition _write_single_language_unit_names (elem : SingleLanguageUnitNames)
    (tag : string) : W unit :=
  _begin_line tag None;;
  for_each (fun part =>
    match part with
    | part_str s => _add_inline_text s
    | part_Subscript text => _write_subscript text true
    | part_Superscript text => _write_superscript text true
    end) (parts elem);;
  _end_line tag.

(** [_write_unit_group(elem)] *)
Definition _write_unit_group (elem : Unit) : W unit :=
  match display_name elem with
  | Some n => _write_single_language_unit_names n "DISPLAY-NAME"
  | None => W_ret tt
  end;;
  match factor elem with
  | Some f => c ← W_lift (_format_float f);
              _add_content "FACTOR-SI-TO-UNIT" c None false
  | None => W_ret tt
  end;;
  match offset elem with
  | Some f => c ← W_lift (_format_float f);
              _add_content "OFFSET-SI-TO-UNIT" c None false
  | None => W_ret tt
  end;;
  match physical_dimension_ref elem with
  | Some r => _write_physical_dimension_ref r
  | None => W_ret tt
  end.

(** [_write_unit(elem)] *)
Definition _write_unit (elem : Unit) : W unit :=
  let attr := _collect_identifiable_attributes (Unit_identifiable elem) [] in
  _add_child "UNIT" (Some attr);;
  _write_referrable (Unit_identifiable elem);;
  _write_multilanguage_referrable (Unit_identifiable elem);;
  _write_identifiable (Unit_identifiable elem);;
  _write_unit_group elem;;
  _leave_child.

(** ** writer.py: computation methods *)

(** [_write_limit(tag, limit, limit_type)] *)
Definition _write_limit (tag : string) (limit : pyval) (limit_type : option IntervalType)
  : W unit :=
  match limit, limit_type with
  | VNone, _ | _, None => W_raise AssertionError
  | _, Some t =>
      let attr := [("INTERVAL-TYPE", enum_to_xml_IntervalType t)] in
      text ← W_lift (match limit with
                     | VFloat f => _format_float f
                     | VInt z => Return (content_str (str_int z))
                     | VBool b => Return (content_str (str_bool b))
                     | _ => Raise TypeError
                     end);
      _add_content tag text (Some attr) false
  end.

(** [_write_compu_const(elem, tag)] *)
Definition _write_compu_const (elem : CompuConst) (tag : string) : W unit :=
  _add_child tag None;;
  match const_value elem with
  | VStr s => _add_content "VT" (content_str s) None false
  | VFloat f => c ← W_lift (_format_float f); _add_content "V" c None false
  | VInt z => _add_content "V" (content_int z) None false
  | VBool b => _add_content "V" (content_bool b) None false
  | _ => W_raise TypeError
  end;;
  _leave_child.

(** [_write_numerator_denominator_values(value)], for a tuple. *)
Definition _write_numerator_denominator_values (value : list coefficient) : W unit :=
  for_each (fun inner_value =>
    content ← W_lift (match inner_value with
                      | coefficient_float f => _format_float f
                      | coefficient_int z => Return (content_str (str_int z))
                      end);
    _add_content "V" content None false) value.

(** [_write_compu_rational(elem)] *)
Definition _write_compu_rational (elem : CompuRational) : W unit :=
  let tag := "COMPU-RATIONAL-COEFFS" in
  if ARObject_is_empty (CompuRational_vars elem) then _add_empty_content tag
  else
    _add_child tag None;;
    match numerator elem with
    | Some v =>
        _add_child "COMPU-NUMERATOR" None;;
        _write_numerator_denominator_values v;;
        _leave_child
    | None => W_ret tt
    end;;
    match denominator elem with
    | Some v =>
        _add_child "COMPU-DENOMINATOR" None;;
        _write_numerator_denominator_values v;;
        _leave_child
    | None => W_ret tt
    end;;
    _leave_child.

(** [_write_compu_scale(elem)] *)
Definition _write_compu_scale (elem : CompuScale) : W unit :=
  let tag := "COMPU-SCALE" in
  if ARObject_is_empty (CompuScale_vars elem) then _add_empty_content tag
  else
    _add_child tag None;;
    match scale_label elem with
    | Some l => _add_content "SHORT-LABEL" (content_str l) None false
    | None => W_ret tt
    end;;
    match symbol elem with
    | Some x => _add_content "SYMBOL" (content_str x) None false
    | None => W_ret tt
    end;;
    match scale_desc elem with
    | Some d => write_foreign d
    | None => W_ret tt
    end;;
    match mask elem with
    | Some m => _add_content "MASK" (content_int m) None false
    | None => W_ret tt
    end;;
    match lower_limit elem with
    | VNone => W_ret tt
    | l => _write_limit "LOWER-LIMIT" l (lower_limit_type elem)
    end;;
    match upper_limit elem with
    | VNone => W_ret tt
    | l => _write_limit "UPPER-LIMIT" l (upper_limit_type elem)
    end;;
    match inverse_value elem with
    | Some v => _write_compu_const v "COMPU-INVERSE-VALUE"
    | None => W_ret tt
    end;;
    match content_of_scale elem with
    | Some (scale_CompuConst c) => _write_compu_const c "COMPU-CONST"
    | Some (scale_CompuRational r) => _write_compu_rational r
    | None => W_ret tt
    end;;
    _leave_child.

(** [_write_computation(elem, tag)] *)
Definition _write_computation (elem : Computation) (tag : string) : W unit :=
  _add_child tag None;;
  match compu_scales elem with
  | Some scales =>
      _add_child "COMPU-SCALES" None;;
      for_each _write_compu_scale scales;;
      _leave_child
  | None => W_ret tt
  end;;
  match default_value elem with
  | Some v => _write_compu_const v "COMPU-DEFAULT-VALUE"
  | None => W_ret tt
  end;;
  _leave_child.

(** [_write_compu_method_group(elem)] *)
Definition _write_compu_method_group (elem : CompuMethod) : W unit :=
  match display_format elem with
  | Some f => _add_content "DISPLAY-FORMAT" (content_str f) None false
  | None => W_ret tt
  end;;
  match unit_ref elem with
  | Some r => _write_unit_ref r
  | None => W_ret tt
  end;;
  match int_to_phys elem with
  | Some c => _write_computation c "COMPU-INTERNAL-TO-PHYS"
  | None => W_ret tt
  end;;
  match phys_to_int elem with
  | Some c => _write_computation c "COMPU-PHYS-TO-INTERNAL"
  | None => W_ret tt
  end.

(** [_write_compu_method(elem)] *)
Definition _write_compu_method (elem : CompuMethod) : W unit :=
  let attr := _collect_identifiable_attributes (CompuMethod_identifiable elem) [] in
  _add_child "COMPU-METHOD" (Some attr);;
  _write_referrable (CompuMethod_identifiable elem);;
  _write_multilanguage_referrable (CompuMethod_identifiable elem);;
  _write_identifiable (CompuMethod_identifiable elem);;
  _write_compu_method_group elem;;
  _leave_child.

(** ** writer.py: value specifications and constants *)

(** [str(v)], for the values whose text is modelled. *)
Definition str_scalar (v : pyval) : outcome string :=
  match v with
  | VInt z => Return (str_int z)
  | VBool b => Return (str_bool b)
  | VStr s => Return s
  | VNone => Return "None"
  | VFloat _ | VList _ | VTuple _ | VObject _ => Raise NotModelled
  end.

(** [_write_value_specification_group(elem)] *)
Definition _write_value_specification_group (label : option string) : W unit :=
  match label with
  | Some l => _add_content "SHORT-LABEL" (content_str l) None false
  | None => W_ret tt
  end.

(** The writer functions of the value specifications.
    [_write_value_specification_element] looks the class of [elem] up in
    [switcher_value_specification]; all seven classes are registered there,
    so the lookup always finds the function of the class, and the match
    below is that lookup followed by the call. *)
Fixpoint _write_value_specification_element (elem : ValueSpecification) : W unit :=
  match elem with
  | TextValueSpecification label value =>
      (* _write_text_value_specification *)
      let tag := "TEXT-VALUE-SPECIFICATION" in
      if ARObject_is_empty (ValueSpecification_vars elem) then _add_empty_content tag
      else
        _add_child tag None;;
        _write_value_specification_group label;;
        match value with
        | Some v => _add_content "VALUE" (content_str v) None false
        | None => W_ret tt
        end;;
        _leave_child
  | NumericalValueSpecification label value =>
      (* _write_numerical_value_specification *)
      let tag := "NUMERICAL-VALUE-SPECIFICATION" in
      if ARObject_is_empty (ValueSpecification_vars elem) then _add_empty_content tag
      else
        _add_child tag None;;
        _write_value_specification_group label;;
        match value with
        | VNone => W_ret tt
        | v => c ← W_lift (_format_number (plain v));
               _add_content "VALUE" c None false
        end;;
        _leave_child
  | NotAvailableValueSpecification label default_pattern _ =>
      (* _write_not_available_value_specification *)
      let tag := "NOT-AVAILABLE-VALUE-SPECIFICATION" in
      if ARObject_is_empty_with_ignore (ValueSpecification_vars elem)
           ["default_pattern_format"]
      then _add_empty_content tag
      else
        _add_child tag None;;
        _write_value_specification_group label;;
        match default_pattern with
        | VNone => W_ret tt
        | v => text ← W_lift (str_scalar v);
               _add_content "DEFAULT-PATTERN" (content_str text) None false
        end;;
        _leave_child
  | ArrayValueSpecification label elements =>
      (* _write_array_value_specification *)
      let tag := "ARRAY-VALUE-SPECIFICATION" in
      if ARObject_is_empty (ValueSpecification_vars elem) then _add_empty_content tag
      else
        _add_child tag None;;
        _write_value_specification_group label;;
        match elements with
        | _ :: _ =>
            _add_child "ELEMENTS" None;;
            for_each _write_value_specification_element elements;;
            _leave_child
        | [] => W_ret tt
        end;;
        _leave_child
  | RecordValueSpecification label fields =>
      (* _write_record_value_specification *)
      let tag := "RECORD-VALUE-SPECIFICATION" in
      if ARObject_is_empty (ValueSpecification_vars elem) then _add_empty_content tag
      else
        _add_child tag None;;
        _write_value_specification_group label;;
        match fields with
        | _ :: _ =>
            _add_child "FIELDS" None;;
            for_each _write_value_specification_element fields;;
            _leave_child
        | [] => W_ret tt
        end;;
        _leave_child
  | ApplicationValueSpecification label category sw_axis_conts sw_value_cont =>
      (* _write_application_value_specification *)
      let tag := "APPLICATION-VALUE-SPECIFICATION" in
      if ARObject_is_empty (ValueSpecification_vars elem) then _add_empty_content tag
      else
        _add_child tag None;;
        _write_value_specification_group label;;
        match category with
        | Some c => _add_content "CATEGORY" (content_str c) None false
        | None => W_ret tt
        end;;
        match sw_axis_conts with
        | _ :: _ =>
            _add_child "SW-AXIS-CONTS" None;;
            for_each write_foreign sw_axis_conts;;
            _leave_child
        | [] => W_ret tt
        end;;
        match sw_value_cont with
        | Some c => write_foreign c
        | None => W_ret tt
        end;;
        _leave_child
  | ConstantReference label constant_ref =>
      (* _write_constant_reference *)
      let tag := "CONSTANT-REFERENCE" in
      if ARObject_is_empty (ValueSpecification_vars elem) then _add_empty_content tag
      else
        _add_child tag None;;
        _write_value_specification_group label;;
        match constant_ref with
        | Some r => _write_constant_ref r "CONSTANT-REF"
        | None => W_ret tt
        end;;
        _leave_child
  end.

(** [_write_constant_specification_group(elem)] *)
Definition _write_constant_specification_group (elem : ConstantSpecification) : W unit :=
  match constant_value elem with
  | Some v =>
      _add_child "VALUE-SPEC" None;;
      _write_value_specification_element v;;
      _leave_child
  | None => W_ret tt
  end.

(** [_write_constant_specification(elem)] *)
Definition _write_constant_specification (elem : ConstantSpecification) : W unit :=
  let attr :=
    _collect_identifiable_attributes (ConstantSpecification_identifiable elem) [] in
  _add_child "CONSTANT-SPECIFICATION" (Some attr);;
  _write_referrable (ConstantSpecification_identifiable elem);;
  _write_multilanguage_referrable (ConstantSpecification_identifiable elem);;
  _write_identifiable (ConstantSpecification_identifiable elem);;
  _write_constant_specification_group elem;;
  _leave_child.

(** ** writer.py: packages, the document, the entry points *)

(** [elem.__class__.__name__] *)
Definition element_class_name (e : element) : string :=
  match e with
  | element_CompuMethod _ => "CompuMethod"
  | element_Unit _ => "Unit"
  | element_ConstantSpecification _ => "ConstantSpecification"
  | element_foreign f => foreign_class f
  end.

(** The keys of the three dispatch tables of [Writer.__init__]. *)
Definition switcher_collectable : list string :=
  ["Package"; "CompuMethod"; "ApplicationArrayDataType"; "ApplicationRecordDataType";
   "ApplicationPrimitiveDataType"; "SwBaseType"; "SwAddrMethod";
   "ImplementationDataType"; "DataTypeMappingSet"; "DataConstraint"; "Unit";
   "ConstantSpecification"].

Definition switcher_value_specification : list string :=
  ["TextValueSpecification"; "NumericalValueSpecification";
   "NotAvailableValueSpecification"; "ArrayValueSpecification";
   "RecordValueSpecification"; "ApplicationValueSpecification"; "ConstantReference"].

Definition switcher_non_collectable : list string :=
  ["Annotation"; "Break"; "DocumentationBlock"; "EmphasisText"; "IndexEntry";
   "MultilanguageLongName"; "MultiLanguageOverviewParagraph"; "MultiLanguageParagraph";
   "MultiLanguageVerbatim"; "LanguageLongName"; "LanguageParagraph"; "LanguageVerbatim";
   "Package"; "SingleLanguageUnitNames"; "Superscript"; "Subscript"; "TechnicalTerm";
   "Computation"; "CompuRational"; "CompuScale";
   "ScaleConstraint"; "InternalConstraint"; "PhysicalConstraint"; "DataConstraintRule";
   "SwDataDefPropsConditional"; "SwBaseTypeRef"; "SwBitRepresentation"; "SwTextProps";
   "SwPointerTargetProps"; "SymbolProps"; "ImplementationDataTypeElement";
   "ApplicationArrayElement"; "ApplicationRecordElement"; "DataTypeMap"; "ValueList";
   "SwValues"; "SwAxisCont"; "SwValueCont";
   "PhysicalDimensionRef"; "ApplicationDataTypeRef"; "ConstantRef"].

Definition switcher_all : list string :=
  (switcher_collectable ++ switcher_value_specification ++ switcher_non_collectable)%list.

(** The function a table holds for the class of an element, called on the
    element. *)
Definition write_element (e : element) : W unit :=
  match e with
  | element_CompuMethod x => _write_compu_method x
  | element_Unit x => _write_unit x
  | element_ConstantSpecification x => _write_constant_specification x
  | element_foreign f => write_foreign f
  end.

(** The loop body of [_write_package_elements]: look the class up, call
    the function found, or raise. *)
Definition write_collectable (elem : element) : W unit :=
  if bool_decide (element_class_name elem ∈ switcher_collectable)
  then write_element elem
  else W_raise NotImplementedError.

(** [_write_package_elements(package)] *)
Definition _write_package_elements (elems : list element) : W unit :=
  _add_child "ELEMENTS" None;;
  for_each write_collectable elems;;
  _leave_child.

(** [_write_package(package)], with [_write_sub_packages] inside it. *)
Fixpoint _write_package (package : Package) : W unit :=
  match package with
  | mkPackage identifiable elems subs =>
      let attr := _collect_identifiable_attributes identifiable [] in
      _add_child "AR-PACKAGE" (Some attr);;
      _write_referrable identifiable;;
      _write_multilanguage_referrable identifiable;;
      _write_identifiable identifiable;;
      match elems with
      | _ :: _ => _write_package_elements elems
      | [] => W_ret tt
      end;;
      match subs with
      | _ :: _ =>
          (* _write_sub_packages *)
          _add_child "AR-PACKAGES" None;;
          for_each _write_package subs;;
          _leave_child
      | [] => W_ret tt
      end;;
      _leave_child
  end.

(** [_write_sub_packages(package)] *)
Definition _write_sub_packages (package : Package) : W unit :=
  _add_child "AR-PACKAGES" None;;
  for_each _write_package (packages package);;
  _leave_child.

(** [_write_packages(packages)] *)
Definition _write_packages (pkgs : list Package) : W unit :=
  _add_child "AR-PACKAGES" None;;
  for_each _write_package pkgs;;
  _leave_child.

(** [_write_document(document, skip_root_attr)] *)
Definition _write_document (document : Document) (skip_root_attr : bool) : W unit :=
  _add_line ("<?xml version=" +:+ quote +:+ "1.0" +:+ quote +:+ " encoding=" +:+ quote
             +:+ "utf-8" +:+ quote +:+ "?>");;
  (if skip_root_attr then _add_child "AUTOSAR" None
   else _add_child "AUTOSAR"
          (Some [("xsi:schemaLocation",
                  "http://autosar.org/schema/r4.0 " +:+ schema_file document);
                 ("xmlns", "http://autosar.org/schema/r4.0");
                 ("xmlns:xsi", "http://www.w3.org/2001/XMLSchema-instance")]));;
  match document_packages document with
  | _ :: _ => _write_packages (document_packages document)
  | [] => W_ret tt
  end;;
  _leave_child.

(** [elem.__class__.__name__] for the objects of the single-element entry
    points. *)
Definition class_name (elem : ar_object) : string :=
  match elem with
  | object_Package _ => "Package"
  | object_element e => element_class_name e
  | object_ValueSpecification v =>
      match v with
      | TextValueSpecification _ _ => "TextValueSpecification"
      | NumericalValueSpecification _ _ => "NumericalValueSpecification"
      | NotAvailableValueSpecification _ _ _ => "NotAvailableValueSpecification"
      | ArrayValueSpecification _ _ => "ArrayValueSpecification"
      | RecordValueSpecification _ _ => "RecordValueSpecification"
      | ApplicationValueSpecification _ _ _ _ => "ApplicationValueSpecification"
      | ConstantReference _ _ => "ConstantReference"
      end
  | object_Computation _ => "Computation"
  | object_CompuScale _ => "CompuScale"
  | object_CompuRational _ => "CompuRational"
  | object_SingleLanguageUnitNames _ => "SingleLanguageUnitNames"
  | object_BaseRef r =>
      match ref_cls r with
      | CompuMethodRef => "CompuMethodRef"
      | FunctionPtrSignatureRef => "FunctionPtrSignatureRef"
      | ImplementationDataTypeRef => "ImplementationDataTypeRef"
      | SwAddrMethodRef => "SwAddrMethodRef"
      | SwBaseTypeRef => "SwBaseTypeRef"
      | DataConstraintRef => "DataConstraintRef"
      | PhysicalDimensionRef => "PhysicalDimensionRef"
      | UnitRef => "UnitRef"
      | IndexDataTypeRef => "IndexDataTypeRef"
      | ApplicationDataTypeRef => "ApplicationDataTypeRef"
      | AutosarDataTypeRef => "AutosarDataTypeRef"
      | ConstantRef => "ConstantRef"
      end
  end.

(** [write_method(elem)] and [write_method(elem, tag)], for the function
    that the tables hold for the class of [elem].  A function that takes a
    tag cannot be called without one, and the other way round: Python
    raises [TypeError] for the wrong number of arguments.  For a foreign
    object the calls it carries are those of the call made. *)
Definition write_method (elem : ar_object) (tag : option string) : W unit :=
  match elem, tag with
  | object_Package p, None => _write_package p
  | object_element (element_foreign f), _ => write_foreign f
  | object_element e, None => write_element e
  | object_ValueSpecification v, None => _write_value_specification_element v
  | object_Computation c, Some t => _write_computation c t
  | object_CompuScale c, None => _write_compu_scale c
  | object_CompuRational c, None => _write_compu_rational c
  | object_SingleLanguageUnitNames n, Some t => _write_single_language_unit_names n t
  | object_BaseRef r, None =>
      match ref_cls r with
      | SwBaseTypeRef => _write_sw_base_type_ref r
      | PhysicalDimensionRef => _write_physical_dimension_ref r
      | _ => W_raise TypeError
      end
  | object_BaseRef r, Some t =>
      match ref_cls r with
      | ApplicationDataTypeRef => _write_application_data_type_ref r t
      | ConstantRef => _write_constant_ref r t
      | _ => W_raise TypeError
      end
  | _, _ => W_raise TypeError
  end.

(** [Writer.write_str(document, skip_root_attr)] *)
Definition write_str (document : Document) (skip_root_attr : bool) : W string :=
  _str_open;;
  _write_document document skip_root_attr;;
  fh_getvalue.

(** [Writer.write_file(document, file_path)] *)
Definition write_file (document : Document) (path : string) : W unit :=
  _open path;;
  _write_document document false;;
  _close.

(** [Writer.write_str_elem(elem, tag)] *)
Definition write_str_elem (elem : ar_object) (tag : option string) : W string :=
  _str_open;;
  (if bool_decide (class_name elem ∈ switcher_all)
   then write_method elem tag
   else W_raise NotImplementedError);;
  fh_getvalue.

(** [Writer.write_file_elem(elem, file_path)] *)
Definition write_file_elem (elem : ar_object) (path : string) : W unit :=
  _open path;;
  (if bool_decide (class_name elem ∈ switcher_collectable)
   then write_method elem None
   else W_raise NotImplementedError);;
  _close.

(** What a call on a new writer returns, and the writer it leaves. *)
Definition run {A : Type} (m : W A) : outcome A * _XMLWriter := m Writer__init__.


(** ** Vocabulary for the statements about the writer *)

(** The test each writer function of a value specification makes before it
    writes: [is_empty], and for the not-available node [is_empty] without
    the pattern format. *)
Definition value_specification_empty (v : ValueSpecification) : bool :=
  match v with
  | NotAvailableValueSpecification _ _ _ =>
      ARObject_is_empty_with_ignore (ValueSpecification_vars v) ["default_pattern_format"]
  | _ => ARObject_is_empty (ValueSpecification_vars v)
  end.

(** The tag of each class of value specification. *)
Definition value_specification_tag (v : ValueSpecification) : string :=
  match v with
  | TextValueSpecification _ _ => "TEXT-VALUE-SPECIFICATION"
  | NumericalValueSpecification _ _ => "NUMERICAL-VALUE-SPECIFICATION"
  | NotAvailableValueSpecification _ _ _ => "NOT-AVAILABLE-VALUE-SPECIFICATION"
  | ArrayValueSpecification _ _ => "ARRAY-VALUE-SPECIFICATION"
  | RecordValueSpecification _ _ => "RECORD-VALUE-SPECIFICATION"
  | ApplicationValueSpecification _ _ _ _ => "APPLICATION-VALUE-SPECIFICATION"
  | ConstantReference _ _ => "CONSTANT-REFERENCE"
  end.

(** Whether there is a stream, and whether it has been closed. *)
Definition stream_status (w : _XMLWriter) : option bool := closed <$> fh w.

(** A method that leaves the stream as open or closed as it found it. *)
Definition keeps_stream {A : Type} (m : W A) : Prop :=
  forall w, stream_status (snd (m w)) = stream_status w.

(** The classes of value specification that [make_value] builds. *)
Fixpoint built_by_make_value (v : ValueSpecification) : bool :=
  match v with
  | TextValueSpecification _ (Some _) => true
  | NumericalValueSpecification _ value => isinstance_int value || isinstance_float value
  | NotAvailableValueSpecification _ _ DEFAULT => true
  | ArrayValueSpecification _ elements => forallb built_by_make_value elements
  | RecordValueSpecification _ fields => forallb built_by_make_value fields
  | _ => false
  end.

(** ** Vocabulary for the statements about numbers as text *)

(** The number that a string of decimal digits stands for; [None] for any
    other string, the empty one included. *)
Definition decimal_value (s : string) : option N :=
  option_map N.of_uint (DecimalString.NilZero.uint_of_string s).

(** The integer that a decimal literal stands for: decimal digits, with a
    minus sign in front for a negative number. *)
Definition int_literal_value (s : string) : option Z :=
  option_map Z.of_int (DecimalString.NilZero.int_of_string s).

(** The number that a hexadecimal literal stands for: the prefix [0x] and
    then at least one of the digits [0] to [9] and [a] to [f]. *)
Definition hexadecimal_literal_value (s : string) : option N :=
  match s with
  | String "0" (String "x" ds) =>
      option_map N.of_hex_uint (HexadecimalString.NilZero.uint_of_string ds)
  | _ => None
  end.

(** The number that binary digits stand for, read after [acc]. *)
Fixpoint binary_digits_value (acc : N) (s : string) : option N :=
  match s with
  | EmptyString => Some acc
  | String "0" rest => binary_digits_value (2 * acc) rest
  | String "1" rest => binary_digits_value (2 * acc + 1) rest
  | String _ _ => None
  end.

(** The number that a binary literal stands for: the prefix [0b] and then
    at least one of the digits [0] and [1]. *)
Definition binary_literal_value (s : string) : option N :=
  match s with
  | String "0" (String "b" (String c ds)) => binary_digits_value 0 (String c ds)
  | _ => None
  end.

(** The first [n] characters of a string and the rest of it. *)
Fixpoint split_at (n : nat) (s : string) : string * string :=
  match n, s with
  | S n', String c rest => let '(a, b) := split_at n' rest in (String c a, b)
  | _, _ => ("", s)
  end.

(** What a text in e-notation stands for: an optional minus sign, one
    digit, a point, six digits, the letter [e], a sign and two digits or
    more.  The result is the sign, the seven digits read as one number,
    and the exponent; [None] for a text of another form. *)
Definition e_notation_value (s : string) : option (bool * N * Z) :=
  let negative := str_startswith "-" s in
  match (if negative then str_tail s else s) with
  | String lead (String point rest) =>
      let '(frac, rest) := split_at 6 rest in
      match rest with
      | String e (String sign ex) =>
          if Ascii.eqb point "." && Ascii.eqb e "e"
             && (String.length frac =? 6)%nat && (2 <=? String.length ex)%nat
             && (Ascii.eqb sign "+" || Ascii.eqb sign "-")
          then
            match decimal_value (String lead frac), decimal_value ex with
            | Some m, Some k =>
                Some (negative, m, if Ascii.eqb sign "-" then - Z.of_N k else Z.of_N k)
            | _, _ => None
            end
          else None
      | _ => None
      end
  | _ => None
  end.



Module Store.

(** ** element.py: packages and their elements

    Packages and elements are mutable objects that point at each other
    (a package lists its children, a child names its parent), so they live
    in a store and are known by their identity. *)

Definition oid := nat.

(** The concrete subclasses of [ARElement] that element.py defines. *)
Inductive ar_class : Set :=
  | cls_CompuMethod
  | cls_DataConstraint
  | cls_Unit
  | cls_SwBaseType
  | cls_ImplementationDataType
  | cls_ApplicationPrimitiveDataType
  | cls_ApplicationArrayDataType
  | cls_ApplicationRecordDataType
  | cls_DataTypeMappingSet
  | cls_SwAddrMethod
  | cls_ConstantSpecification
  | cls_SenderReceiverInterface
  | cls_ApplicationSoftwareComponentType.

(** [Referrable]: the two attributes the package operations read and write. *)
Record Referrable : Set := mkReferrable {
  name : string;
  parent : option oid
}.

(** The attributes [Package.__init__] adds. *)
Record PackageBody : Type := mkPackageBody {
  elements : list oid;
  packages : list oid;
  _collection_map : gmap string oid
}.

Inductive object : Type :=
  | PackageObj (r : Referrable) (b : PackageBody)
  | ElementObj (c : ar_class) (r : Referrable)
  | DocumentObj (root_packages : list oid)
  | OtherObj.

Abbreviation store := (gmap oid object).

(** Calls that read and write the store. *)
Definition M (A : Type) : Type := store -> outcome A * store.

Definition ret {A : Type} (a : A) : M A := fun h => (Return a, h).
Definition raise {A : Type} (e : exn) : M A := fun h => (Raise e, h).
Definition bind {A B : Type} (m : M A) (k : A -> M B) : M B :=
  fun h => match m h with
           | (Return a, h') => k a h'
           | (Raise e, h') => (Raise e, h')
           end.
Definition modify (f : store -> store) : M unit := fun h => (Return tt, f h).

#[global] Instance M_ret : MRet M := @ret.
#[global] Instance M_bind : MBind M := fun A B k m => bind m k.

(** Reading [self] inside a method of [Package]. *)
Definition self_package (self : oid) : M (Referrable * PackageBody) :=
  fun h => match h !! self with
           | Some (PackageObj r b) => (Return (r, b), h)
           | _ => (Raise AttributeError, h)
           end.

(** [obj.parent = p] *)
Definition set_parent (p : option oid) (x : object) : object :=
  match x with
  | PackageObj r b => PackageObj (mkReferrable (name r) p) b
  | ElementObj c r => ElementObj c (mkReferrable (name r) p)
  | other => other
  end.

(** [self.packages.append(i)] *)
Definition packages_append (i : oid) (x : object) : object :=
  match x with
  | PackageObj r b =>
      PackageObj r (mkPackageBody (elements b) (packages b ++ [i])%list (_collection_map b))
  | other => other
  end.

(** [self.elements.append(i)] *)
Definition elements_append (i : oid) (x : object) : object :=
  match x with
  | PackageObj r b =>
      PackageObj r (mkPackageBody (elements b ++ [i])%list (packages b) (_collection_map b))
  | other => other
  end.

(** [self._collection_map[k] = i] *)
Definition collection_map_set (k : string) (i : oid) (x : object) : object :=
  match x with
  | PackageObj r b =>
      PackageObj r (mkPackageBody (elements b) (packages b) (<[k := i]> (_collection_map b)))
  | other => other
  end.

(** [k in self._collection_map] *)
Definition collection_map_contains (b : PackageBody) (k : string) : bool :=
  bool_decide (is_Some (_collection_map b !! k)).

(** Looking at the object a name is bound to. *)
Definition deref (o : oid) : M object :=
  fun h => (Return (default OtherObj (h !! o)), h).

(** [Package.append(self, item)] *)
Definition append (self item : oid) : M unit :=
  me ← self_package self;
  it ← deref item;
  match it with
  | PackageObj r _ =>
      if collection_map_contains (snd me) (name r) then raise ValueError
      else
        modify (alter (set_parent (Some self)) item);;
        modify (alter (packages_append item) self);;
        modify (alter (collection_map_set (name r) item) self)
  | ElementObj _ r =>
      if collection_map_contains (snd me) (name r) then raise ValueError
      else
        modify (alter (set_parent (Some self)) item);;
        modify (alter (elements_append item) self);;
        modify (alter (collection_map_set (name r) item) self)
  | _ => raise TypeError
  end.

(** What [create_package] hands back: the new package, or an exception
    object as an ordinary return value. *)
Inductive created : Set :=
  | NewPackage (p : oid)
  | ExceptionObject (e : exn).

(** [Package(name)]: a new object, distinct from every object there is. *)
Definition Package__init__ (n : string) : M oid :=
  fun h =>
    let p := fresh (dom h) in
    (Return p, <[p := PackageObj (mkReferrable n None) (mkPackageBody [] [] ∅)]> h).

(** [Package.create_package(self, name)], called without keyword arguments *)
Definition create_package (self : oid) (n : string) : M created :=
  me ← self_package self;
  if collection_map_contains (snd me) n then ret (ExceptionObject ValueError)
  else
    package ← Package__init__ n;
    modify (alter (collection_map_set n package) self) ;;
    modify (alter (packages_append package) self) ;;
    modify (alter (set_parent (Some self)) package) ;;
    ret (NewPackage package).

(** Modelled from the spec: [Document.update_ref_parts].  The document class
    is not part of the sources at hand.  The spec gives the path of an
    element [C] in package [/A/B] as the short names from the root package
    down, ["A/B/C"]: the document ends the walk and adds no part of its
    own. *)
Definition Document_update_ref_parts (ref_parts : list string) : list string :=
  ref_parts.

(** [Package.update_ref_parts(self, ref_parts)].  The method calls itself on
    the parent; [depth] bounds the number of nested calls, as the
    interpreter's recursion limit does.  The list is the one the caller
    passed, extended in place; it is returned here. *)
Fixpoint update_ref_parts (depth : nat) (h : store) (self : oid) (ref_parts : list string)
  : outcome (list string) :=
  match depth with
  | O => Raise RecursionError
  | S depth' =>
      match h !! self with
      | Some (PackageObj r _) =>
          let ref_parts := (ref_parts ++ [name r])%list in
          match parent r with
          | Some p => update_ref_parts depth' h p ref_parts
          | None => Raise AttributeError
          end
      | Some (DocumentObj _) => Return (Document_update_ref_parts ref_parts)
      | _ => Raise AttributeError
      end
  end.

(** The two shapes of [ref()] in element.py.  Both build the path from
    [self.name] and the parts the ancestors add; they differ in what they
    do when [self.parent] is [None]. *)
Definition ref_or_none (mk : ref_value -> outcome BaseRef)
  (depth : nat) (h : store) (r : Referrable) : outcome (option BaseRef) :=
  match parent r with
  | None => Return None
  | Some p =>
      obind (update_ref_parts depth h p [name r]) (fun ref_parts =>
      obind (mk (ref_path (join "/" (rev ref_parts)))) (fun x => Return (Some x)))
  end.

Definition ref_asserting (mk : ref_value -> outcome BaseRef)
  (depth : nat) (h : store) (r : Referrable) : outcome (option BaseRef) :=
  match parent r with
  | None => Raise AssertionError
  | Some p =>
      obind (update_ref_parts depth h p [name r]) (fun ref_parts =>
      obind (mk (ref_path (join "/" (rev ref_parts)))) (fun x => Return (Some x)))
  end.

Definition CompuMethod_ref := ref_or_none CompuMethodRef__init__.
Definition DataConstraint_ref := ref_asserting DataConstraintRef__init__.
Definition SwBaseType_ref := ref_or_none SwBaseTypeRef__init__.
Definition ImplementationDataType_ref := ref_or_none ImplementationDataTypeRef__init__.
Definition ApplicationPrimitiveDataType_ref :=
  ref_or_none (fun v => ApplicationDataTypeRef__init__ v APPLICATION_PRIMITIVE_DATA_TYPE).
Definition ApplicationArrayDataType_ref :=
  ref_or_none (fun v => ApplicationDataTypeRef__init__ v APPLICATION_ARRAY_DATA_TYPE).
Definition ApplicationRecordDataType_ref :=
  ref_or_none (fun v => ApplicationDataTypeRef__init__ v APPLICATION_RECORD_DATA_TYPE).
Definition SwAddrMethod_ref := ref_asserting SwAddrMethodRef__init__.
Definition ConstantSpecification_ref := ref_asserting ConstantRef__init__.

(** [elem.ref()]: the method of the class of [elem].  Classes that define no
    such method ([Unit] among them) have no attribute of that name. *)
Definition ref (depth : nat) (h : store) (self : oid) : outcome (option BaseRef) :=
  match h !! self with
  | Some (ElementObj c r) =>
      match c with
      | cls_CompuMethod => CompuMethod_ref depth h r
      | cls_DataConstraint => DataConstraint_ref depth h r
      | cls_SwBaseType => SwBaseType_ref depth h r
      | cls_ImplementationDataType => ImplementationDataType_ref depth h r
      | cls_ApplicationPrimitiveDataType => ApplicationPrimitiveDataType_ref depth h r
      | cls_ApplicationArrayDataType => ApplicationArrayDataType_ref depth h r
      | cls_ApplicationRecordDataType => ApplicationRecordDataType_ref depth h r
      | cls_SwAddrMethod => SwAddrMethod_ref depth h r
      | cls_ConstantSpecification => ConstantSpecification_ref depth h r
      | cls_Unit | cls_DataTypeMappingSet | cls_SenderReceiverInterface
      | cls_ApplicationSoftwareComponentType => Raise AttributeError
      end
  | _ => Raise AttributeError
  end.

(** ** element.py: finding and making packages by path *)

(** [x.find(ref)] for the object [x]: [Package.find], or
    [ImplementationDataType.find]; the other element classes have no
    method of that name.  [depth] bounds the nested calls, as for
    [update_ref_parts].  The sub-elements of an implementation data type
    are not part of the store. *)
Fixpoint find (depth : nat) (h : store) (self : oid) (ref : string) : outcome (option oid) :=
  match depth with
  | O => Raise RecursionError
  | S depth' =>
      match h !! self with
      | Some (PackageObj _ b) =>
          let ref := if str_startswith "/" ref then str_tail ref else ref in
          let '(head, _, rest) := str_partition "/" ref in
          match _collection_map b !! head with
          | Some item =>
              if (0 <? String.length rest)%nat then find depth' h item rest
              else Return (Some item)
          | None => Return None
          end
      | Some (ElementObj cls_ImplementationDataType _) =>
          if str_contains "/" ref then Raise AssertionError else Raise NotModelled
      | Some (ElementObj _ _) => Raise AttributeError
      | _ => Raise NotModelled
      end
  end.

(** [Package.make_packages(self, ref)].  The result is a package, or what
    [create_package] handed back. *)
Fixpoint make_packages (depth : nat) (self : oid) (ref : string) : M created :=
  match depth with
  | O => raise RecursionError
  | S depth' =>
      me ← self_package self;
      if str_startswith "/" ref then raise ValueError
      else
        let '(head, _, rest) := str_partition "/" ref in
        package ← match _collection_map (snd me) !! head with
                  | None => create_package self head
                  | Some item =>
                      it ← deref item;
                      match it with
                      | PackageObj _ _ => ret (NewPackage item)
                      | _ => raise KeyError
                      end
                  end;
        if (0 <? String.length rest)%nat then
          match package with
          | NewPackage p => make_packages depth' p rest
          | ExceptionObject _ => raise AttributeError
          end
        else ret package
  end.

(** ** Vocabulary for the statements about packages *)

(** The short name of an object that a package accepts as a child. *)
Definition collectable_name (x : object) : option string :=
  match x with
  | PackageObj r _ | ElementObj _ r => Some (name r)
  | _ => None
  end.

(** The index of a package. *)
Definition index_of (x : object) : option (gmap string oid) :=
  match x with
  | PackageObj _ b => Some (_collection_map b)
  | _ => None
  end.

(** What [update_ref_parts] reads of an object: name and parent of a
    package, and that a document is a document. *)
Definition path_view (x : object) : option (option Referrable) :=
  match x with
  | PackageObj r _ => Some (Some r)
  | DocumentObj _ => Some None
  | _ => None
  end.

(** The element classes that define [ref()], and those among them whose
    [ref()] starts with [assert self.parent is not None]. *)
Definition has_ref (c : ar_class) : bool :=
  match c with
  | cls_Unit | cls_DataTypeMappingSet | cls_SenderReceiverInterface
  | cls_ApplicationSoftwareComponentType => false
  | _ => true
  end.

Definition asserts_parent (c : ar_class) : bool :=
  match c with
  | cls_DataConstraint | cls_SwAddrMethod | cls_ConstantSpecification => true
  | _ => false
  end.

(** A store that has grown: every package is still a package, and its index
    still holds what it held. *)
Definition grows (h h' : store) : Prop :=
  forall o r b, h !! o = Some (PackageObj r b) ->
    exists r' b', h' !! o = Some (PackageObj r' b') /\
                  _collection_map b ⊆ _collection_map b'.

(** ** A small document, used to run the operations

    A document with the root packages [A] and [D]; [A] holds the package
    [B], which holds the computation method [C]; three objects that are in
    no package yet. *)
Definition demo_store : store :=
  {[ 0%nat := DocumentObj [1%nat; 4%nat];
     1%nat := PackageObj (mkReferrable "A" (Some 0%nat))
                (mkPackageBody [] [2%nat] {[ "B" := 2%nat ]});
     2%nat := PackageObj (mkReferrable "B" (Some 1%nat))
                (mkPackageBody [3%nat] [] {[ "C" := 3%nat ]});
     3%nat := ElementObj cls_CompuMethod (mkReferrable "C" (Some 2%nat));
     4%nat := PackageObj (mkReferrable "D" (Some 0%nat)) (mkPackageBody [] [] ∅);
     5%nat := ElementObj cls_CompuMethod (mkReferrable "X" None);
     6%nat := PackageObj (mkReferrable "X" None) (mkPackageBody [] [] ∅);
     7%nat := ElementObj cls_ConstantSpecification (mkReferrable "K" None) ]}.

End Store.

(* ================================================================= *)
(** * Properties *)

Example join_three : join "/" ["A"; "B"; "C"] = "A/B/C".
Proof. reflexivity. Qed.

Example upper_array : upper "aRray" = "ARRAY".
Proof. reflexivity. Qed.

(** ** References *)

(** C5. [BaseRef.__init__], run for a [CompuMethodRef], raises at once for
    every destination kind other than [COMPU_METHOD] and succeeds for
    [COMPU_METHOD]; the constructor of [CompuMethodRef] passes that kind, so
    it succeeds for every path, and the string conversion of the reference
    is the path given.  The outcome depends on the kind alone: no path, and
    no value of any other type, is ever looked at or resolved. *)
Theorem CompuMethodRef_checks_kind_only (path : string) (v : ref_value)
    (d : IdentifiableSubTypes) :
  BaseRef__init__ CompuMethodRef (ref_path path) d
    = (if decide (d = COMPU_METHOD)
       then Return (mkBaseRef CompuMethodRef (ref_path path) COMPU_METHOD)
       else Raise ValueError) /\
  CompuMethodRef__init__ (ref_path path)
    = Return (mkBaseRef CompuMethodRef (ref_path path) COMPU_METHOD) /\
  obind (CompuMethodRef__init__ (ref_path path)) BaseRef__str__ = Return path /\
  returns (BaseRef__init__ CompuMethodRef v d) = bool_decide (d = COMPU_METHOD).
Proof.
  repeat split; try reflexivity; by destruct d.
Qed.

Example CompuMethodRef_with_unit_kind :
  BaseRef__init__ CompuMethodRef (ref_path "/A/B/C") UNIT = Raise ValueError.
Proof. reflexivity. Qed.

(** ** The value-specification builder *)

Lemma make_each_numbers (zs : list Z) :
  make_each make_value (map VInt zs)
  = Return (map (fun z => NumericalValueSpecification None (VInt z)) zs).
Proof.
  induction zs as [|z zs IH]; [done|].
  simpl in *. by rewrite IH.
Qed.

(** An array of integers, under any spelling of the array tag, becomes an
    array node whose children are the numeric nodes of the integers, in the
    order given. *)
Lemma make_value_array_of_numbers (tag : string) (zs : list Z) :
  upper tag ∈ ["A"; "ARRAY"] ->
  make_value (VList (VStr tag :: map VInt zs))
  = Return (ArrayValueSpecification None
              (map (fun z => NumericalValueSpecification None (VInt z)) zs)).
Proof.
  intros Htag. simpl. rewrite bool_decide_eq_true_2 by done.
  unfold _make_array_value_spefication.
  change (make_each _ (map VInt zs)) with (make_each make_value (map VInt zs)).
  by rewrite make_each_numbers.
Qed.

(** C6. The builder maps plain data to the variants: an integer to a
    numeric node with that value, a string to a text node, [None] to a
    not-available node, the list [["array", 1, 2, 3]] to an array node with
    three numeric children in the order given, the tuple [("label", 5)] to
    a numeric node labelled ["label"]; and a list whose first element is
    not one of the tags ["A"], ["ARRAY"], ["R"], ["RECORD"] in any mix of
    upper and lower case raises at once, [TypeError] when the element is
    not a string and [ValueError] when it is. *)
Theorem make_value_shapes (first : pyval) (rest : list pyval) :
  match first with
  | VStr tag => upper tag ∉ ["A"; "ARRAY"; "R"; "RECORD"]
  | _ => True
  end ->
  make_value (VInt 5) = Return (NumericalValueSpecification None (VInt 5)) /\
  make_value (VStr "x") = Return (TextValueSpecification None (Some "x")) /\
  make_value VNone = Return (NotAvailableValueSpecification None VNone DEFAULT) /\
  make_value (VList [VStr "array"; VInt 1; VInt 2; VInt 3])
    = Return (ArrayValueSpecification None
                [NumericalValueSpecification None (VInt 1);
                 NumericalValueSpecification None (VInt 2);
                 NumericalValueSpecification None (VInt 3)]) /\
  make_value (VTuple [VStr "label"; VInt 5])
    = Return (NumericalValueSpecification (Some "label") (VInt 5)) /\
  make_value (VList (first :: rest))
    = Raise (if isinstance_str first then ValueError else TypeError).
Proof.
  intros Hfirst. repeat split.
  destruct first as [| | | |tag| | |]; try reflexivity.
  simpl. rewrite !bool_decide_eq_false_2; [done| |].
  - intros H. apply Hfirst. revert H. rewrite !elem_of_cons, !elem_of_nil. tauto.
  - intros H. apply Hfirst. revert H. rewrite !elem_of_cons, !elem_of_nil. tauto.
Qed.

Lemma make_value_shapes_witness :
  make_value (VList [VStr "map"; VInt 1]) = Raise ValueError /\
  make_value (VList [VInt 1; VInt 2]) = Raise TypeError.
Proof.
  split.
  - refine (proj2 (proj2 (proj2 (proj2 (proj2
      (make_value_shapes (VStr "map") [VInt 1] _)))))).
    apply (bool_decide_unpack _). vm_compute. exact I.
  - refine (proj2 (proj2 (proj2 (proj2 (proj2
      (make_value_shapes (VInt 1) [VInt 2] _)))))).
    exact I.
Defined.

Example make_value_float :
  make_value (VFloat (F_finite (mkDecimal false 25 (-1))))
  = Return (NumericalValueSpecification None (VFloat (F_finite (mkDecimal false 25 (-1))))).
Proof. reflexivity. Qed.

Example make_value_record_nested :
  make_value (VList [VStr "R"; VTuple [VStr "a"; VInt 1]; VList [VStr "a"; VStr "s"]])
  = Return (RecordValueSpecification None
              [NumericalValueSpecification (Some "a") (VInt 1);
               ArrayValueSpecification None [TextValueSpecification None (Some "s")]]).
Proof. reflexivity. Qed.

Example make_value_bad_element_ends_loop :
  make_value (VList [VStr "array"; VInt 1; VObject "dict"; VInt 3]) = Raise TypeError.
Proof. reflexivity. Qed.

Example make_value_negative_default_pattern :
  make_value (VTuple [VStr "n"; VNone; VInt (-1)]) = Raise ValueError.
Proof. reflexivity. Qed.

(** ** Units *)

(** C9. A [Unit] built with the string [d] as display name and the string
    [s] as physical-dimension reference stores a reference whose path is
    [d]: the constructor passes [display_name] where
    [physical_dimension_ref] was meant, and [s] is dropped. *)
Theorem Unit_reference_path_is_display_name (n d s : string) (factor offset : option pyfloat) :
  Unit__init__ n (arg_str d) factor offset (arg_str s)
  = Return (mkUnit (Identifiable__init__ n)
              (Some (SingleLanguageUnitNames__init__ d))
              (Some (mkBaseRef PhysicalDimensionRef (ref_path d) PHYSICAL_DIMENSION))
              factor offset).
Proof. reflexivity. Qed.

(** The path given is kept only when the caller passes a reference made
    beforehand. *)
Example Unit_with_reference_instance :
  obind (Unit__init__ "Kmh" (arg_str "km/h") None None
           (arg_instance (mkBaseRef PhysicalDimensionRef (ref_path "/Dim/Speed") PHYSICAL_DIMENSION)))
        (fun u => Return (physical_dimension_ref u))
  = Return (Some (mkBaseRef PhysicalDimensionRef (ref_path "/Dim/Speed") PHYSICAL_DIMENSION)).
Proof. reflexivity. Qed.

Example Unit_with_reference_string :
  obind (Unit__init__ "Kmh" (arg_str "km/h") None None (arg_str "/Dim/Speed"))
        (fun u => Return (physical_dimension_ref u))
  = Return (Some (mkBaseRef PhysicalDimensionRef (ref_path "km/h") PHYSICAL_DIMENSION)).
Proof. reflexivity. Qed.

Example Unit_display_name_parts :
  parts (SingleLanguageUnitNames__init__ "m/s") = [part_str "m"; part_str "/"; part_str "s"].
Proof. reflexivity. Qed.

(** ** Formatting of numbers *)

(** C2 at the float [1e28].  The formatter gives ["INF"], ["-INF"] and
    ["NaN"] for the three special values and the decimal [2], without
    fractional part, for [2.0]; for the integral float [1e28], whose
    representation is [1E+28], it raises [InvalidOperation]: the result of
    [quantize] would have 29 digits, one more than the precision of the
    context. *)
Theorem format_float_1e28_raises :
  _format_float (F_inf false) = Return (content_str "INF") /\
  _format_float (F_inf true) = Return (content_str "-INF") /\
  _format_float F_nan = Return (content_str "NaN") /\
  _format_float (F_finite (mkDecimal false 20 (-1))) = Return (content_Decimal (mkDecimal false 2 0)) /\
  Decimal__str__ (mkDecimal false 2 0) = "2" /\
  Decimal_eq (mkDecimal false 1 28) (to_integral (mkDecimal false 1 28)) = true /\
  _format_float (F_finite (mkDecimal false 1 28)) = Raise InvalidOperation.
Proof. repeat split; vm_compute; reflexivity. Qed.

Example format_float_1e27 :
  obind (_format_float (F_finite (mkDecimal false 1 27))) (fun c => Return (content_text c))
  = Return "1000000000000000000000000000".
Proof. vm_compute. reflexivity. Qed.

Example format_float_half :
  obind (_format_float (F_finite (mkDecimal false 5 (-1)))) (fun c => Return (content_text c))
  = Return "0.5".
Proof. vm_compute. reflexivity. Qed.

Example format_float_small :
  obind (_format_float (F_finite (mkDecimal false 15 (-8)))) (fun c => Return (content_text c))
  = Return "1.5E-7".
Proof. vm_compute. reflexivity. Qed.

Example format_float_zero_is_false :
  obind (_format_float (F_finite (mkDecimal false 0 (-1)))) (fun c => Return (content_text c, content_truth c))
  = Return ("0", false).
Proof. vm_compute. reflexivity. Qed.

(** The loop of [normalize] keeps the number. *)
Lemma strip_zeros_value (steps : nat) :
  forall (c : N) (e : Z) (c' : N) (e' : Z),
    strip_zeros steps c e = (c', e') ->
    e <= e' /\ Z.of_N c = Z.of_N c' * 10 ^ (e' - e).
Proof.
  induction steps as [|steps IH]; intros c e c' e' H; simpl in H.
  - injection H as <- <-. rewrite Z.sub_diag. simpl. lia.
  - destruct (c mod 10 =? 0)%N eqn:Hmod.
    + apply IH in H as [Hle Hc]. split; [lia|].
      apply N.eqb_eq in Hmod.
      assert (Hdiv : Z.of_N c = 10 * Z.of_N (c / 10)).
      { rewrite (N.div_mod c 10) at 1 by done. rewrite Hmod. lia. }
      rewrite Hdiv, Hc.
      replace (e' - e) with (Z.succ (e' - (e + 1))) by lia.
      rewrite Z.pow_succ_r by lia. lia.
    + injection H as <- <-. rewrite Z.sub_diag. simpl. lia.
Qed.

(** [normalize] gives a decimal that denotes the same number: for a float
    that is not integral, the text written is another spelling of the
    representation [str] gives for it. *)
Lemma normalize_same_number (d : Decimal) :
  ndigits (_int d) <= prec ->
  Decimal_eq (normalize d) d = true.
Proof.
  intros Hd. unfold normalize, _fix.
  replace (ndigits (_int d) - prec <=? 0) with true by (symmetry; apply Z.leb_le; lia).
  destruct (_int d =? 0)%N eqn:Hz.
  - apply N.eqb_eq in Hz. unfold Decimal_eq, scaled_to. simpl. rewrite Hz.
    apply Z.eqb_eq. lia.
  - destruct (strip_zeros _ _ _) as [c e] eqn:Hs.
    apply strip_zeros_value in Hs as [Hle Hc].
    unfold Decimal_eq, scaled_to. simpl.
    rewrite Z.min_r by lia. rewrite Z.sub_diag. apply Z.eqb_eq.
    rewrite Hc. simpl. lia.
Qed.

(** Where the formatter returns for an integral float, it returns a
    decimal with exponent 0, so without fractional part, that denotes the
    same number. *)
Lemma format_float_integral (tmp : Decimal) (c : content) :
  Decimal_eq tmp (to_integral tmp) = true ->
  _format_float (F_finite tmp) = Return c ->
  exists d, c = content_Decimal d /\ _exp d = 0 /\ Decimal_eq tmp d = true.
Proof.
  intros Hint H. simpl in H. rewrite Hint in H. unfold quantize_1 in H.
  destruct (_int tmp =? 0)%N eqn:Hz.
  - injection H as <-. eexists. split; [done|]. split; [done|].
    apply N.eqb_eq in Hz. unfold Decimal_eq, scaled_to. simpl. rewrite Hz.
    apply Z.eqb_eq. lia.
  - destruct (adjusted tmp - 0 + 1 >? prec); [done|].
    destruct (ndigits (_int (_rescale0 tmp)) >? prec); [done|].
    injection H as <-. eexists. split; [done|].
    unfold to_integral in Hint. unfold _rescale0 in *. rewrite Hz in *.
    destruct (_exp tmp >=? 0) eqn:He; simpl; [|done].
    split; [done|]. apply Z.geb_le in He.
    unfold Decimal_eq, scaled_to. simpl. rewrite Z.min_r by lia.
    apply Z.eqb_eq. rewrite !Z.sub_0_r. rewrite N2Z.inj_mul, N2Z.inj_pow.
    rewrite Z2N.id by lia. simpl. lia.
Qed.

Lemma format_float_not_integral (tmp : Decimal) :
  Decimal_eq tmp (to_integral tmp) = false ->
  ndigits (_int tmp) <= prec ->
  exists d,
    _format_float (F_finite tmp) = Return (content_Decimal d) /\ Decimal_eq d tmp = true.
Proof.
  intros Hint Hd. simpl. rewrite Hint. eexists. split; [done|].
  by apply normalize_same_number.
Qed.


(** ** The digits of a number *)









(** ** Rounding *)



(** ** The decimal exponent *)




(** ** The text of the e presentation *)







(** ** Literals *)








(** ** Integers as floats *)


(** The readers at work: a literal is read as its number; upper-case
    digits, a sign after the prefix, a prefix alone and a text in another
    form than the e-notation are read as nothing. *)
Example literal_values :
  int_literal_value "-42" = Some (-42) /\
  hexadecimal_literal_value "0xff" = Some 255%N /\
  hexadecimal_literal_value "0xFF" = None /\
  hexadecimal_literal_value "0x" = None /\
  hexadecimal_literal_value "ff" = None /\
  binary_literal_value "0b101" = Some 5%N /\
  binary_literal_value "0b" = None /\
  binary_literal_value "0b102" = None /\
  e_notation_value "1.500000e-07" = Some (false, 1500000%N, -7) /\
  e_notation_value "-1.500000e+03" = Some (true, 1500000%N, 3) /\
  e_notation_value "1.5e-07" = None /\
  e_notation_value "1.500000E-07" = None /\
  e_notation_value "1.500000e-7" = None /\
  e_notation_value "1500" = None.
Proof. repeat split. Qed.





Example format_numerical_value_255_hexadecimal :
  _format_numerical_value (mkNumericalValue (VInt 255) HEXADECIMAL)
  = Return (content_str "0xff").
Proof. reflexivity. Qed.

Example format_numerical_value_negative_hexadecimal :
  _format_numerical_value (mkNumericalValue (VInt (-255)) HEXADECIMAL)
  = Return (content_str "0x-ff").
Proof. reflexivity. Qed.

Example format_numerical_value_5_binary :
  _format_numerical_value (mkNumericalValue (VInt 5) BINARY)
  = Return (content_str "0b101").
Proof. reflexivity. Qed.

Example format_numerical_value_1500_scientific :
  _format_numerical_value (mkNumericalValue (VInt 1500) SCIENTIFIC)
  = Return (content_str "1.500000e+03").
Proof. vm_compute. reflexivity. Qed.

Example format_numerical_value_float_scientific :
  _format_numerical_value
    (mkNumericalValue (VFloat (F_finite (mkDecimal false 15 (-8)))) SCIENTIFIC)
  = Return (content_str "1.500000e-07").
Proof. vm_compute. reflexivity. Qed.

Example format_numerical_value_42_decimal :
  _format_numerical_value (mkNumericalValue (VInt 42) DECIMAL)
  = Return (content_str "42").
Proof. reflexivity. Qed.

(** ** Empty objects in the writer *)

(** The writer functions that ask [is_empty] first write one self-closing
    tag for an empty object: every value specification, *)
Lemma write_value_specification_collapses (v : ValueSpecification) :
  value_specification_empty v = true ->
  fst (run (write_str_elem (object_ValueSpecification v) None))
  = Return ("<" +:+ value_specification_tag v +:+ "/>").
Proof.
  intros H.
  assert (E : run (write_str_elem (object_ValueSpecification v) None)
              = run (_str_open;; _add_empty_content (value_specification_tag v);; fh_getvalue)).
  { unfold write_str_elem.
    replace (bool_decide (class_name (object_ValueSpecification v) ∈ switcher_all))
      with true by (by destruct v).
    unfold write_method. destruct v; simpl in H; simpl; by rewrite H. }
  rewrite E. by destruct v.
Qed.

(** the rational coefficients, *)
Lemma write_compu_rational_collapses (c : CompuRational) :
  ARObject_is_empty (CompuRational_vars c) = true ->
  fst (run (write_str_elem (object_CompuRational c) None))
  = Return "<COMPU-RATIONAL-COEFFS/>".
Proof.
  intros H. unfold write_str_elem, write_method, _write_compu_rational.
  rewrite H. reflexivity.
Qed.

(** and the scale. *)
Lemma write_compu_scale_collapses (c : CompuScale) :
  ARObject_is_empty (CompuScale_vars c) = true ->
  fst (run (write_str_elem (object_CompuScale c) None)) = Return "<COMPU-SCALE/>".
Proof.
  intros H. unfold write_str_elem, write_method, _write_compu_scale.
  rewrite H. reflexivity.
Qed.

(** C3 at the empty computation.  [Computation()] has no attribute set, so
    [is_empty] holds for it; its writer function is registered; and it
    writes an opening tag and a closing tag on two lines, not one
    self-closing tag.  With an empty list of scales, which [is_empty] also
    takes for empty, it writes a child tag as well. *)
Theorem write_computation_empty_is_not_collapsed :
  ARObject_is_empty (Computation_vars Computation__init__) = true /\
  "Computation" ∈ switcher_all /\
  fst (run (write_str_elem (object_Computation Computation__init__)
              (Some "COMPU-INTERNAL-TO-PHYS")))
  = Return ("<COMPU-INTERNAL-TO-PHYS>" +:+ newline +:+ "</COMPU-INTERNAL-TO-PHYS>") /\
  ARObject_is_empty (Computation_vars (mkComputation (Some []) None)) = true /\
  fst (run (write_str_elem (object_Computation (mkComputation (Some []) None))
              (Some "COMPU-INTERNAL-TO-PHYS")))
  = Return ("<COMPU-INTERNAL-TO-PHYS>" +:+ newline
            +:+ "  <COMPU-SCALES>" +:+ newline
            +:+ "  </COMPU-SCALES>" +:+ newline
            +:+ "</COMPU-INTERNAL-TO-PHYS>").
Proof.
  split; [reflexivity|]. split; [by apply (bool_decide_unpack _)|].
  split; [vm_compute; reflexivity|]. split; [reflexivity|].
  vm_compute; reflexivity.
Qed.

Example write_empty_text_value_specification :
  fst (run (write_str_elem (object_ValueSpecification (TextValueSpecification None None)) None))
  = Return "<TEXT-VALUE-SPECIFICATION/>".
Proof. vm_compute. reflexivity. Qed.

Example write_array_value_specification :
  obind (make_value (VList [VStr "array"; VInt 1; VTuple [VStr "l"; VStr "x"]]))
    (fun v => fst (run (write_str_elem (object_ValueSpecification v) None)))
  = Return ("<ARRAY-VALUE-SPECIFICATION>" +:+ newline
            +:+ "  <ELEMENTS>" +:+ newline
            +:+ "    <NUMERICAL-VALUE-SPECIFICATION>" +:+ newline
            +:+ "      <VALUE>1</VALUE>" +:+ newline
            +:+ "    </NUMERICAL-VALUE-SPECIFICATION>" +:+ newline
            +:+ "    <TEXT-VALUE-SPECIFICATION>" +:+ newline
            +:+ "      <SHORT-LABEL>l</SHORT-LABEL>" +:+ newline
            +:+ "      <VALUE>x</VALUE>" +:+ newline
            +:+ "    </TEXT-VALUE-SPECIFICATION>" +:+ newline
            +:+ "  </ELEMENTS>" +:+ newline
            +:+ "</ARRAY-VALUE-SPECIFICATION>").
Proof. vm_compute. reflexivity. Qed.

(** ** The stream across the writer functions *)

Lemma keeps_stream_ret {A : Type} (a : A) : keeps_stream (W_ret a).
Proof. by intros w. Qed.

Lemma keeps_stream_raise {A : Type} (e : exn) : keeps_stream (@W_raise A e).
Proof. by intros w. Qed.

Lemma keeps_stream_lift {A : Type} (o : outcome A) : keeps_stream (W_lift o).
Proof. by intros w. Qed.

Lemma keeps_stream_bind {A B : Type} (m : W A) (k : A -> W B) :
  keeps_stream m -> (forall a, keeps_stream (k a)) -> keeps_stream (m ≫= k).
Proof.
  intros Hm Hk w. unfold mbind, W_mbind, W_bind.
  specialize (Hm w). destruct (m w) as [[a|e] w']; simpl in *; [|done].
  by rewrite Hk.
Qed.

Lemma keeps_stream_for_each {A : Type} (body : A -> W unit) (l : list A) :
  Forall (fun x => keeps_stream (body x)) l -> keeps_stream (for_each body l).
Proof.
  induction 1 as [|x l Hx Hl IH]; simpl.
  - apply keeps_stream_ret.
  - apply keeps_stream_bind; [done|]. by intros _.
Qed.

Lemma keeps_stream_fh_write (text : string) : keeps_stream (fh_write text).
Proof.
  intros w. unfold fh_write, stream_status.
  destruct (fh w) as [st|] eqn:E; [|simpl; by rewrite ?E].
  destruct (closed st) eqn:C; simpl; rewrite ?E; simpl; by rewrite ?C.
Qed.

Create HintDb writer.

#[local] Hint Resolve keeps_stream_ret keeps_stream_raise keeps_stream_lift
  keeps_stream_fh_write : writer.

(** One step through a method body: sequencing, branching, and the
    methods already dealt with. *)
Ltac keeps_stream_step :=
  match goal with
  | |- keeps_stream (_ ≫= _) => apply keeps_stream_bind; [|intros ?]
  | |- keeps_stream (if ?b then _ else _) => destruct b
  | |- keeps_stream (match ?x with _ => _ end) => destruct x
  | |- keeps_stream (for_each _ _) =>
      apply keeps_stream_for_each; apply Forall_forall; intros ? _
  | |- keeps_stream (fun w => (_, _)) => intros w; reflexivity
  | |- _ => solve [auto with writer]
  end.

Ltac keeps_stream_tac := repeat keeps_stream_step.

Lemma keeps_stream_start_line : keeps_stream start_line.
Proof. unfold start_line. keeps_stream_tac. Qed.
#[local] Hint Resolve keeps_stream_start_line : writer.

Lemma keeps_stream_add_line text : keeps_stream (_add_line text).
Proof. unfold _add_line. keeps_stream_tac. Qed.
#[local] Hint Resolve keeps_stream_add_line : writer.

Lemma keeps_stream_indent : keeps_stream _indent.
Proof. by intros w. Qed.

Lemma keeps_stream_dedent : keeps_stream _dedent.
Proof. by intros w. Qed.
#[local] Hint Resolve keeps_stream_indent keeps_stream_dedent : writer.

Lemma keeps_stream_add_child tag attr : keeps_stream (_add_child tag attr).
Proof. unfold _add_child. keeps_stream_tac. Qed.

Lemma keeps_stream_tag_stack_pop : keeps_stream tag_stack_pop.
Proof. intros w. unfold tag_stack_pop. by destruct (last (tag_stack w)). Qed.
#[local] Hint Resolve keeps_stream_add_child keeps_stream_tag_stack_pop : writer.

Lemma keeps_stream_leave_child : keeps_stream _leave_child.
Proof. unfold _leave_child. keeps_stream_tac. Qed.

Lemma keeps_stream_begin_line tag attr : keeps_stream (_begin_line tag attr).
Proof. unfold _begin_line, _add_inline_text. keeps_stream_tac. Qed.

Lemma keeps_stream_end_line tag : keeps_stream (_end_line tag).
Proof. unfold _end_line. keeps_stream_tac. Qed.

Lemma keeps_stream_add_content tag c attr inline :
  keeps_stream (_add_content tag c attr inline).
Proof. unfold _add_content, _add_inline_text. keeps_stream_tac. Qed.
#[local] Hint Resolve keeps_stream_leave_child keeps_stream_begin_line
  keeps_stream_end_line keeps_stream_add_content : writer.

Lemma keeps_stream_perform c : keeps_stream (perform c).
Proof. destruct c; simpl; unfold _add_inline_text; keeps_stream_tac. Qed.
#[local] Hint Resolve keeps_stream_perform : writer.

Lemma keeps_stream_write_foreign f : keeps_stream (write_foreign f).
Proof. unfold write_foreign. keeps_stream_tac. Qed.
#[local] Hint Resolve keeps_stream_write_foreign : writer.

Lemma keeps_stream_write_identifiable_groups (i : Identifiable) :
  keeps_stream (_write_referrable i) /\
  keeps_stream (_write_multilanguage_referrable i) /\
  keeps_stream (_write_identifiable i).
Proof.
  repeat split;
    unfold _write_referrable, _write_multilanguage_referrable, _write_identifiable,
      _write_annotations, _write_admin_data, _add_empty_content;
    keeps_stream_tac.
Qed.

Lemma keeps_stream_write_referrable i : keeps_stream (_write_referrable i).
Proof. apply keeps_stream_write_identifiable_groups. Qed.
Lemma keeps_stream_write_multilanguage_referrable i :
  keeps_stream (_write_multilanguage_referrable i).
Proof. apply keeps_stream_write_identifiable_groups. Qed.
Lemma keeps_stream_write_identifiable i : keeps_stream (_write_identifiable i).
Proof. apply keeps_stream_write_identifiable_groups. Qed.
#[local] Hint Resolve keeps_stream_write_referrable
  keeps_stream_write_multilanguage_referrable keeps_stream_write_identifiable : writer.

Lemma keeps_stream_write_ref c tag r : keeps_stream (write_ref c tag r).
Proof. unfold write_ref. keeps_stream_tac. Qed.
#[local] Hint Resolve keeps_stream_write_ref : writer.

Lemma keeps_stream_write_unit u : keeps_stream (_write_unit u).
Proof.
  unfold _write_unit, _write_unit_group, _write_single_language_unit_names,
    _write_physical_dimension_ref, _write_subscript, _write_superscript,
    _add_inline_text.
  keeps_stream_tac.
Qed.

Lemma keeps_stream_write_compu_const c tag : keeps_stream (_write_compu_const c tag).
Proof. unfold _write_compu_const. keeps_stream_tac. Qed.
#[local] Hint Resolve keeps_stream_write_unit keeps_stream_write_compu_const : writer.

Lemma keeps_stream_write_compu_rational c : keeps_stream (_write_compu_rational c).
Proof.
  unfold _write_compu_rational, _write_numerator_denominator_values, _add_empty_content.
  keeps_stream_tac.
Qed.
#[local] Hint Resolve keeps_stream_write_compu_rational : writer.

Lemma keeps_stream_write_limit tag l t : keeps_stream (_write_limit tag l t).
Proof. unfold _write_limit. keeps_stream_tac. Qed.
#[local] Hint Resolve keeps_stream_write_limit : writer.

Lemma keeps_stream_write_compu_scale c : keeps_stream (_write_compu_scale c).
Proof. unfold _write_compu_scale, _add_empty_content. keeps_stream_tac. Qed.
#[local] Hint Resolve keeps_stream_write_compu_scale : writer.

Lemma keeps_stream_write_computation c tag : keeps_stream (_write_computation c tag).
Proof. unfold _write_computation. keeps_stream_tac. Qed.
#[local] Hint Resolve keeps_stream_write_computation : writer.

Lemma keeps_stream_write_compu_method c : keeps_stream (_write_compu_method c).
Proof.
  unfold _write_compu_method, _write_compu_method_group, _write_unit_ref.
  keeps_stream_tac.
Qed.
#[local] Hint Resolve keeps_stream_write_compu_method : writer.

(** Induction over a value specification and the value specifications
    inside it, and over a package and its sub-packages. *)
Lemma ValueSpecification_nested_ind (P : ValueSpecification -> Prop) :
  (forall l v, P (TextValueSpecification l v)) ->
  (forall l v, P (NumericalValueSpecification l v)) ->
  (forall l d f, P (NotAvailableValueSpecification l d f)) ->
  (forall l es, Forall P es -> P (ArrayValueSpecification l es)) ->
  (forall l fs, Forall P fs -> P (RecordValueSpecification l fs)) ->
  (forall l c a v, P (ApplicationValueSpecification l c a v)) ->
  (forall l r, P (ConstantReference l r)) ->
  forall v, P v.
Proof.
  intros Htext Hnum Hna Harray Hrecord Happ Hconst.
  fix IH 1. intros [l v|l v|l d f|l es|l fs|l c a v|l r].
  - apply Htext.
  - apply Hnum.
  - apply Hna.
  - apply Harray. induction es as [|e es IHes]; constructor; [apply IH | exact IHes].
  - apply Hrecord. induction fs as [|e fs IHfs]; constructor; [apply IH | exact IHfs].
  - apply Happ.
  - apply Hconst.
Qed.

Lemma Package_nested_ind (P : Package -> Prop) :
  (forall i es ps, Forall P ps -> P (mkPackage i es ps)) ->
  forall p, P p.
Proof.
  intros H. fix IH 1. intros [i es ps]. apply H.
  induction ps as [|p ps IHps]; constructor; [apply IH | exact IHps].
Qed.

Lemma keeps_stream_write_value_specification_element (v : ValueSpecification) :
  keeps_stream (_write_value_specification_element v).
Proof.
  induction v using ValueSpecification_nested_ind;
    cbn [_write_value_specification_element];
    unfold _write_value_specification_group, _add_empty_content, _write_constant_ref;
    repeat match goal with
           | |- keeps_stream (for_each _write_value_specification_element _) =>
               by apply keeps_stream_for_each
           | |- _ => keeps_stream_step
           end.
Qed.
#[local] Hint Resolve keeps_stream_write_value_specification_element : writer.

Lemma keeps_stream_write_constant_specification c :
  keeps_stream (_write_constant_specification c).
Proof.
  unfold _write_constant_specification, _write_constant_specification_group.
  keeps_stream_tac.
Qed.
#[local] Hint Resolve keeps_stream_write_constant_specification : writer.

Lemma keeps_stream_write_element e : keeps_stream (write_element e).
Proof. destruct e; simpl; auto with writer. Qed.
#[local] Hint Resolve keeps_stream_write_element : writer.

Lemma keeps_stream_write_package_elements es : keeps_stream (_write_package_elements es).
Proof. unfold _write_package_elements, write_collectable. keeps_stream_tac. Qed.
#[local] Hint Resolve keeps_stream_write_package_elements : writer.

Lemma keeps_stream_write_package (p : Package) : keeps_stream (_write_package p).
Proof.
  induction p using Package_nested_ind. cbn [_write_package].
  repeat match goal with
         | |- keeps_stream (for_each _write_package _) => by apply keeps_stream_for_each
         | |- _ => keeps_stream_step
         end.
Qed.
#[local] Hint Resolve keeps_stream_write_package : writer.

Lemma keeps_stream_write_document d skip : keeps_stream (_write_document d skip).
Proof. unfold _write_document, _write_packages. keeps_stream_tac. Qed.

Lemma keeps_stream_write_method elem tag : keeps_stream (write_method elem tag).
Proof.
  unfold write_method, _write_single_language_unit_names, _write_sw_base_type_ref,
    _write_physical_dimension_ref, _write_application_data_type_ref, _write_constant_ref,
    _write_subscript, _write_superscript, _add_inline_text.
  keeps_stream_tac.
Qed.

(** A stream opened, written to by a method that keeps it, and closed: the
    stream is closed when the whole returns and open when it raises. *)
Lemma open_write_close (path : string) (m : W unit) (w : _XMLWriter) :
  keeps_stream m ->
  match (_open path;; m;; _close) w with
  | (Return _, w') => stream_status w' = Some true
  | (Raise _, w') => stream_status w' = Some false
  end.
Proof.
  intros Hm. unfold mbind, W_mbind, W_bind. cbn [_open].
  set (w1 := mk_XMLWriter _ _ _ _ _ _ _ _).
  specialize (Hm w1). destruct (m w1) as [[[]|e] w2]; simpl in Hm; [|done].
  unfold _close, stream_status in *. destruct (fh w2) as [st|]; [done|done].
Qed.

(** C7, as amended.  In [write_file_elem] and in [write_file] the stream
    that the call opened is closed when the call returns.  When the call
    raises, the stream is left open: nothing closes it on the way out.
    That is so in particular when the dispatch lookup finds no writer
    function for the class and the call raises [NotImplementedError]. *)
Theorem write_file_closes_on_return_only (w : _XMLWriter) (path : string) :
  (forall elem,
      match write_file_elem elem path w with
      | (Return _, w') => stream_status w' = Some true
      | (Raise _, w') => stream_status w' = Some false
      end) /\
  (forall document,
      match write_file document path w with
      | (Return _, w') => stream_status w' = Some true
      | (Raise _, w') => stream_status w' = Some false
      end) /\
  (forall elem,
      class_name elem ∉ switcher_collectable ->
      exists w',
        write_file_elem elem path w = (Raise NotImplementedError, w') /\
        stream_status w' = Some false).
Proof.
  split; [|split].
  - intros elem. apply open_write_close.
    destruct (bool_decide _); [apply keeps_stream_write_method | apply keeps_stream_raise].
  - intros document. apply open_write_close, keeps_stream_write_document.
  - intros elem Hc. unfold write_file_elem.
    rewrite bool_decide_eq_false_2 by done.
    eexists. split; reflexivity.
Qed.

(** Two calls that raise: an element whose class has no function in the
    table for [write_file_elem], and a document with an element of a class
    that has none.  The stream stays open, in the second call with the
    part of the document written so far. *)
Lemma write_file_leaves_stream_open :
  (let '(r, w) := run (write_file_elem (object_Computation Computation__init__) "out.arxml") in
   r = Raise NotImplementedError /\ stream_status w = Some false) /\
  (let '(r, w) :=
     run (write_file
            (mkDocument
               [mkPackage (Identifiable__init__ "Pkg")
                  [element_foreign (mkForeign "SenderReceiverInterface" [])] []]
               "AUTOSAR_00051.xsd")
            "out.arxml") in
   r = Raise NotImplementedError /\ stream_status w = Some false).
Proof. split; vm_compute; split; reflexivity. Qed.

Section StoreProperties.
Import Store.

(** ** Packages: what the operations keep and change *)

Lemma index_of_set_parent p x : index_of (set_parent p x) = index_of x.
Proof. by destruct x. Qed.

Lemma index_of_packages_append i x : index_of (packages_append i x) = index_of x.
Proof. by destruct x. Qed.

Lemma index_of_elements_append i x : index_of (elements_append i x) = index_of x.
Proof. by destruct x. Qed.

Lemma index_of_collection_map_set k i x :
  index_of (collection_map_set k i x) = (<[k := i]>) <$> index_of x.
Proof. by destruct x. Qed.

Lemma self_package_index (self : oid) (h h' : store) r b :
  self_package self h = (Return (r, b), h') ->
  h' = h /\ h !! self = Some (PackageObj r b).
Proof.
  unfold self_package. destruct (h !! self) as [[]|] eqn:E; intros [=]; subst; auto.
Qed.

Lemma self_package_of_index (self : oid) (h : store) m :
  index_of <$> (h !! self) = Some (Some m) ->
  exists r b, self_package self h = (Return (r, b), h) /\ _collection_map b = m.
Proof.
  unfold self_package. destruct (h !! self) as [[]|]; simpl; intros [=]; subst; eauto.
Qed.

Lemma collectable_name_set_parent p x :
  collectable_name (set_parent p x) = collectable_name x.
Proof. by destruct x. Qed.

Lemma collectable_name_packages_append i x :
  collectable_name (packages_append i x) = collectable_name x.
Proof. by destruct x. Qed.

Lemma collectable_name_elements_append i x :
  collectable_name (elements_append i x) = collectable_name x.
Proof. by destruct x. Qed.

Lemma collectable_name_collection_map_set k i x :
  collectable_name (collection_map_set k i x) = collectable_name x.
Proof. by destruct x. Qed.

(** An update that keeps a view of every object keeps the view of the store. *)
Lemma lookup_alter_view_at {V : Type} (view : object -> V) (f : object -> object)
    (i j : oid) (h : store) :
  (forall x, h !! i = Some x -> view (f x) = view x) ->
  view <$> (alter f i h !! j) = view <$> (h !! j).
Proof.
  intros Hf. rewrite lookup_alter. case_decide; subst; [|done].
  destruct (h !! j) eqn:E; simpl; [by rewrite Hf|done].
Qed.

Lemma lookup_alter_view {V : Type} (view : object -> V) (f : object -> object)
    (i j : oid) (h : store) :
  (forall x, view (f x) = view x) ->
  view <$> (alter f i h !! j) = view <$> (h !! j).
Proof. intros Hf. apply lookup_alter_view_at. auto. Qed.

Lemma lookup_alter_index_set (k : string) (v i : oid) (h : store) :
  index_of <$> (alter (collection_map_set k v) i h !! i)
  = (fmap (<[k := v]>)) <$> (index_of <$> (h !! i)).
Proof.
  rewrite lookup_alter_eq. destruct (h !! i); simpl; [|done].
  by rewrite index_of_collection_map_set.
Qed.

(** After a successful [append], the index of the package holds the name
    of the item. *)
Lemma append_indexes (p a : oid) (h h1 : store) :
  append p a h = (Return tt, h1) ->
  exists n m,
    collectable_name <$> (h !! a) = Some (Some n) /\
    index_of <$> (h1 !! p) = Some (Some m) /\ m !! n = Some a /\
    (forall o, collectable_name <$> (h1 !! o) = collectable_name <$> (h !! o)).
Proof.
  intros H. unfold append, mbind, M_bind, bind in H.
  destruct (self_package p h) as [[[r b]|e] h0] eqn:Hs; [|done].
  apply self_package_index in Hs as [-> Hp].
  unfold deref in H.
  destruct (h !! a) as [x|] eqn:Ha; simpl in H; [|done].
  destruct x as [ra ba | ca ra | |]; try done.
  - destruct (collection_map_contains b (name ra)) eqn:Hc; [done|].
    unfold modify in H. simpl in H. injection H as <-.
    exists (name ra), (<[name ra := a]> (_collection_map b)).
    split; [done|]. split; [|split].
    + rewrite lookup_alter_index_set.
      rewrite (lookup_alter_view index_of) by apply index_of_packages_append.
      rewrite (lookup_alter_view index_of) by apply index_of_set_parent.
      by rewrite Hp.
    + apply lookup_insert_eq.
    + intros o.
      rewrite (lookup_alter_view collectable_name) by apply collectable_name_collection_map_set.
      rewrite (lookup_alter_view collectable_name) by apply collectable_name_packages_append.
      by rewrite (lookup_alter_view collectable_name) by apply collectable_name_set_parent.
  - destruct (collection_map_contains b (name ra)) eqn:Hc; [done|].
    unfold modify in H. simpl in H. injection H as <-.
    exists (name ra), (<[name ra := a]> (_collection_map b)).
    split; [done|]. split; [|split].
    + rewrite lookup_alter_index_set.
      rewrite (lookup_alter_view index_of) by apply index_of_elements_append.
      rewrite (lookup_alter_view index_of) by apply index_of_set_parent.
      by rewrite Hp.
    + apply lookup_insert_eq.
    + intros o.
      rewrite (lookup_alter_view collectable_name) by apply collectable_name_collection_map_set.
      rewrite (lookup_alter_view collectable_name) by apply collectable_name_elements_append.
      by rewrite (lookup_alter_view collectable_name) by apply collectable_name_set_parent.
Qed.

(** C1. Once [p.append(a)] has succeeded, [p.append(b)] raises for every
    package or element [b] that has the short name of [a], and the store is
    left as it was before the failed call: the [elements] list, the
    [packages] list and the index of [p], and everything else. *)
Theorem append_same_name_raises (h h1 : store) (p a b : oid) (n : string) :
  append p a h = (Return tt, h1) ->
  collectable_name <$> (h !! a) = Some (Some n) ->
  collectable_name <$> (h1 !! b) = Some (Some n) ->
  append p b h1 = (Raise ValueError, h1).
Proof.
  intros Ha Hna Hnb.
  apply append_indexes in Ha as (n' & m & Hn' & Hm & Hmn & _).
  rewrite Hna in Hn'. injection Hn' as <-.
  apply self_package_of_index in Hm as (r & b' & Hs & <-).
  unfold append, mbind, M_bind, bind. rewrite Hs.
  unfold deref.
  destruct (h1 !! b) as [x|]; simpl in *; [|done].
  destruct x as [rb bb | cb rb | |]; simpl in Hnb; try done;
    injection Hnb as ->; unfold collection_map_contains;
    rewrite Hmn; by rewrite bool_decide_eq_true_2 by eauto.
Qed.

Lemma create_package_existing (h : store) (p : oid) (n : string) r b :
  h !! p = Some (PackageObj r b) ->
  is_Some (_collection_map b !! n) ->
  create_package p n h = (Return (ExceptionObject ValueError), h).
Proof.
  intros Hp Hn. unfold create_package, mbind, M_bind, bind, self_package.
  rewrite Hp. simpl. unfold collection_map_contains.
  by rewrite bool_decide_eq_true_2.
Qed.

Lemma create_package_absent (h : store) (p : oid) (n : string) r b :
  h !! p = Some (PackageObj r b) ->
  _collection_map b !! n = None ->
  let q := fresh (dom h) in
  exists h',
    create_package p n h = (Return (NewPackage q), h') /\
    h !! q = None /\
    h' !! q = Some (PackageObj (mkReferrable n (Some p)) (mkPackageBody [] [] ∅)) /\
    h' !! p = Some (PackageObj r
                 (mkPackageBody (elements b) (packages b ++ [q])%list
                                (<[n := q]> (_collection_map b)))) /\
    (forall o, o <> p -> o <> q -> h' !! o = h !! o).
Proof.
  intros Hp Hn q.
  assert (Hq : h !! q = None) by (apply not_elem_of_dom, is_fresh).
  assert (Hpq : p <> q) by (intros ->; congruence).
  unfold create_package, mbind, M_bind, bind, self_package.
  rewrite Hp. simpl. unfold collection_map_contains.
  rewrite bool_decide_eq_false_2 by (rewrite Hn; by intros [? ?]).
  unfold Package__init__, modify. simpl. fold q.
  eexists. split; [reflexivity|]. split; [done|]. split; [|split].
  - rewrite lookup_alter_eq, !lookup_alter_ne, lookup_insert_eq by done. done.
  - rewrite lookup_alter_ne, lookup_alter_eq, lookup_alter_eq by done.
    rewrite lookup_insert_ne by done. by rewrite Hp.
  - intros o Hop Hoq.
    rewrite !lookup_alter_ne, lookup_insert_ne by done. done.
Qed.

(** C10. When the name is already in the index of [p], [create_package]
    does not raise: it returns the [ValueError] object as its result and
    leaves the store, so the [packages] list and the index of [p], as they
    were.  When the name is absent it makes a new package, enters it in the
    index and in the [packages] list of [p], sets its parent to [p] and
    returns it. *)
Theorem create_package_returns_error_object (h : store) (p : oid) (n : string) r b :
  h !! p = Some (PackageObj r b) ->
  (is_Some (_collection_map b !! n) ->
     create_package p n h = (Return (ExceptionObject ValueError), h)) /\
  (_collection_map b !! n = None ->
     exists q h',
       create_package p n h = (Return (NewPackage q), h') /\
       h !! q = None /\
       h' !! q = Some (PackageObj (mkReferrable n (Some p)) (mkPackageBody [] [] ∅)) /\
       h' !! p = Some (PackageObj r
                    (mkPackageBody (elements b) (packages b ++ [q])%list
                                   (<[n := q]> (_collection_map b))))).
Proof.
  intros Hp. split.
  - intros Hn. by eapply create_package_existing.
  - intros Hn. destruct (create_package_absent h p n r b Hp Hn) as (h' & H1 & H2 & H3 & H4 & _).
    eauto 10.
Qed.

Lemma append_same_name_raises_witness :
  let h1 := snd (append 4%nat 5%nat demo_store) in
  append 4%nat 6%nat h1 = (Raise ValueError, h1).
Proof.
  apply (append_same_name_raises demo_store _ 4%nat 5%nat 6%nat "X");
    vm_compute; reflexivity.
Defined.

Lemma create_package_returns_error_object_witness :
  create_package 1%nat "B" demo_store = (Return (ExceptionObject ValueError), demo_store).
Proof.
  refine (proj1 (create_package_returns_error_object demo_store 1%nat "B"
                   (mkReferrable "A" (Some 0%nat))
                   (mkPackageBody [] [2%nat] {[ "B" := 2%nat ]}) _) _).
  - vm_compute; reflexivity.
  - vm_compute. eauto.
Defined.

(** ** Reference paths *)

Lemma path_view_packages_append i x : path_view (packages_append i x) = path_view x.
Proof. by destruct x. Qed.

Lemma path_view_elements_append i x : path_view (elements_append i x) = path_view x.
Proof. by destruct x. Qed.

Lemma path_view_collection_map_set k i x :
  path_view (collection_map_set k i x) = path_view x.
Proof. by destruct x. Qed.

(** [update_ref_parts] is a function of names and parents of the packages
    alone. *)
Lemma update_ref_parts_ext (h h' : store) :
  (forall o, path_view <$> (h' !! o) = path_view <$> (h !! o)) ->
  forall depth self ref_parts,
    update_ref_parts depth h' self ref_parts = update_ref_parts depth h self ref_parts.
Proof.
  intros Hv depth. induction depth as [|depth IH]; intros self ref_parts; [done|].
  simpl. specialize (Hv self).
  destruct (h' !! self) as [[r' b'|c' r'|l'|]|], (h !! self) as [[r b|c r|l|]|];
    simpl in Hv; try done.
  injection Hv as ->. destruct (parent r); [apply IH|done].
Qed.

(** More depth than needed changes nothing. *)
Lemma update_ref_parts_deeper (h : store) (depth : nat) :
  forall self ref_parts parts,
    update_ref_parts depth h self ref_parts = Return parts ->
    update_ref_parts (S depth) h self ref_parts = Return parts.
Proof.
  induction depth as [|depth IH]; intros self ref_parts parts H; [done|].
  simpl in H. change (update_ref_parts (S (S depth)) h self ref_parts)
    with (match h !! self with
          | Some (PackageObj r _) =>
              match parent r with
              | Some p => update_ref_parts (S depth) h p (ref_parts ++ [name r])%list
              | None => Raise AttributeError
              end
          | Some (DocumentObj _) => Return (Document_update_ref_parts ref_parts)
          | _ => Raise AttributeError
          end).
  destruct (h !! self) as [[r b|c r|l|]|]; try done.
  destruct (parent r); [by apply IH|done].
Qed.

(** Every class that defines [ref()] wraps the path it computed, whatever
    the path is: the kind the class passes is one its reference class
    accepts. *)
Lemma ref_on_path (depth : nat) (h : store) (c : oid) (cl : ar_class)
    (n : string) (p : oid) (parts : list string) :
  has_ref cl = true ->
  h !! c = Some (ElementObj cl (mkReferrable n (Some p))) ->
  update_ref_parts depth h p [n] = Return parts ->
  exists rc d,
    ref depth h c = Return (Some (mkBaseRef rc (ref_path (join "/" (rev parts))) d)).
Proof.
  intros Hcl Hc Hp. unfold ref. rewrite Hc.
  destruct cl; try discriminate Hcl;
    unfold CompuMethod_ref, DataConstraint_ref, SwBaseType_ref, ImplementationDataType_ref,
      ApplicationPrimitiveDataType_ref, ApplicationArrayDataType_ref,
      ApplicationRecordDataType_ref, SwAddrMethod_ref, ConstantSpecification_ref,
      ref_or_none, ref_asserting; simpl; rewrite Hp; simpl; eauto.
Qed.

Lemma ref_without_parent (depth : nat) (h : store) (c : oid) (cl : ar_class) (n : string) :
  has_ref cl = true ->
  h !! c = Some (ElementObj cl (mkReferrable n None)) ->
  ref depth h c = if asserts_parent cl then Raise AssertionError else Return None.
Proof.
  intros Hcl Hc. unfold ref. rewrite Hc. by destruct cl.
Qed.

Lemma append_element_moves (h : store) (q c : oid) (cl : ar_class) (rc : Referrable) rq bq :
  h !! c = Some (ElementObj cl rc) ->
  h !! q = Some (PackageObj rq bq) ->
  _collection_map bq !! name rc = None ->
  exists h',
    append q c h = (Return tt, h') /\
    h' !! c = Some (ElementObj cl (mkReferrable (name rc) (Some q))) /\
    (forall o, path_view <$> (h' !! o) = path_view <$> (h !! o)).
Proof.
  intros Hc Hq Hn.
  assert (Hcq : c <> q) by (intros ->; congruence).
  unfold append, mbind, M_bind, bind, self_package, deref. rewrite Hq, Hc. simpl.
  unfold collection_map_contains.
  rewrite bool_decide_eq_false_2 by (rewrite Hn; by intros [? ?]).
  unfold modify. simpl. eexists. split; [reflexivity|]. split.
  - rewrite !lookup_alter_ne, lookup_alter_eq by done. by rewrite Hc.
  - intros o.
    rewrite (lookup_alter_view path_view) by apply path_view_collection_map_set.
    rewrite (lookup_alter_view path_view) by apply path_view_elements_append.
    apply lookup_alter_view_at. intros x Hx. rewrite Hc in Hx. by injection Hx as <-.
Qed.

(** C4, as amended.  For an element [c] of a class that defines [ref()]:
    - when [c] is named [nc] and sits in package [nb], itself in the root
      package [na] of a document, [ref()] returns a reference whose path is
      [na/nb/nc], computed by walking the parent links;
    - when [c] is then appended to another package [q], the next [ref()]
      returns the path that the ancestors of [q] give, [parts] being what the
      walk from [q] collects;
    - when [c] has no parent, [ref()] returns [None], except for
      [DataConstraint], [SwAddrMethod] and [ConstantSpecification], whose
      [ref()] asserts that there is a parent and raises [AssertionError]. *)
Theorem ref_follows_parent_links (h : store) (depth : nat) (c : oid) (cl : ar_class)
    (nc : string) :
  has_ref cl = true ->
  (forall b a d nb na bb ba dp,
      h !! c = Some (ElementObj cl (mkReferrable nc (Some b))) ->
      h !! b = Some (PackageObj (mkReferrable nb (Some a)) bb) ->
      h !! a = Some (PackageObj (mkReferrable na (Some d)) ba) ->
      h !! d = Some (DocumentObj dp) ->
      exists rc dst,
        ref (S (S (S depth))) h c
        = Return (Some (mkBaseRef rc (ref_path (na +:+ "/" +:+ nb +:+ "/" +:+ nc)) dst))) /\
  (forall old q rq bq parts,
      h !! c = Some (ElementObj cl (mkReferrable nc old)) ->
      h !! q = Some (PackageObj rq bq) ->
      _collection_map bq !! nc = None ->
      update_ref_parts depth h q [nc] = Return parts ->
      exists h' rc dst,
        append q c h = (Return tt, h') /\
        ref depth h' c = Return (Some (mkBaseRef rc (ref_path (join "/" (rev parts))) dst))) /\
  (h !! c = Some (ElementObj cl (mkReferrable nc None)) ->
      ref depth h c = if asserts_parent cl then Raise AssertionError else Return None).
Proof.
  intros Hcl. split; [|split].
  - intros b a d nb na bb ba dp Hc Hb Ha Hd.
    destruct (ref_on_path (S (S (S depth))) h c cl nc b [nc; nb; na] Hcl Hc) as (rc & dst & H).
    + simpl. rewrite Hb. simpl. rewrite Ha. simpl. by rewrite Hd.
    + exists rc, dst. by rewrite H.
  - intros old q rq bq parts Hc Hq Hn Hparts.
    destruct (append_element_moves h q c cl _ rq bq Hc Hq Hn) as (h' & Happ & Hc' & Hview).
    destruct (ref_on_path depth h' c cl nc q parts Hcl Hc') as (rc & dst & H).
    + by rewrite (update_ref_parts_ext h h' Hview).
    + eauto.
  - by apply ref_without_parent.
Qed.

Lemma ref_follows_parent_links_witness :
  (exists rc dst,
      ref 5 demo_store 3%nat = Return (Some (mkBaseRef rc (ref_path "A/B/C") dst))) /\
  (exists h' rc dst,
      append 4%nat 3%nat demo_store = (Return tt, h') /\
      ref 2 h' 3%nat = Return (Some (mkBaseRef rc (ref_path "D/C") dst))) /\
  ref 2 demo_store 5%nat = Return None.
Proof.
  pose proof (ref_follows_parent_links demo_store 2 3%nat cls_CompuMethod "C" eq_refl)
    as (H1 & H2 & _).
  pose proof (ref_follows_parent_links demo_store 2 5%nat cls_CompuMethod "X" eq_refl)
    as (_ & _ & H3).
  split; [|split].
  - apply (H1 2%nat 1%nat 0%nat "B" "A"
             (mkPackageBody [3%nat] [] {[ "C" := 3%nat ]})
             (mkPackageBody [] [2%nat] {[ "B" := 2%nat ]})
             [1%nat; 4%nat]); reflexivity.
  - apply (H2 (Some 2%nat) 4%nat (mkReferrable "D" (Some 0%nat)) (mkPackageBody [] [] ∅)
             ["C"; "D"]); reflexivity.
  - apply H3. reflexivity.
Defined.

Example ref_of_C_in_A_B :
  ref 3 demo_store 3%nat
  = Return (Some (mkBaseRef CompuMethodRef (ref_path "A/B/C") COMPU_METHOD)).
Proof. reflexivity. Qed.

Example ref_of_C_moved_to_D :
  ref 2 (snd (append 4%nat 3%nat demo_store)) 3%nat
  = Return (Some (mkBaseRef CompuMethodRef (ref_path "D/C") COMPU_METHOD)).
Proof. reflexivity. Qed.

(** A [ConstantSpecification] that is in no package: [ref()] raises, it does
    not return [None]. *)
Lemma ref_without_parent_asserts :
  ref 2 demo_store 7%nat = Raise AssertionError /\
  ref 2 demo_store 7%nat <> Return None.
Proof. split; [reflexivity | discriminate]. Qed.

End StoreProperties.

(* ================================================================= *)
(** * Further properties *)

(** ** Unit names *)

(** [__str__] part by part. *)
Lemma unit_names_str_cons (p : unit_name_part) (l : list unit_name_part) :
  SingleLanguageUnitNames__str__ (mkSingleLanguageUnitNames (p :: l))
  = match p with
    | part_str s =>
        obind (SingleLanguageUnitNames__str__ (mkSingleLanguageUnitNames l))
              (fun r => Return (s +:+ r))
    | part_Superscript text =>
        obind (SingleLanguageUnitNames__str__ (mkSingleLanguageUnitNames l))
              (fun r => Return ("^" +:+ text +:+ r))
    | part_Subscript _ => Raise ValueError
    end.
Proof. by destruct p. Qed.

(** Unit names made from a string convert back to that string, although
    the constructor stores the string one character at a time.  The
    conversion of unit names fails only with [ValueError], and it fails
    exactly when one of the parts is a subscript. *)
Theorem unit_names_str_round_trip (s : string) (n : SingleLanguageUnitNames) :
  SingleLanguageUnitNames__str__ (SingleLanguageUnitNames__init__ s) = Return s /\
  match SingleLanguageUnitNames__str__ n with
  | Return _ => forall text, part_Subscript text ∉ parts n
  | Raise e => e = ValueError /\ exists text, part_Subscript text ∈ parts n
  end.
Proof.
  split.
  - unfold SingleLanguageUnitNames__init__, characters.
    rewrite <- (string_of_list_ascii_of_string s) at 2.
    induction (list_ascii_of_string s) as [|c l IH]; [done|].
    cbn [map]. rewrite unit_names_str_cons, IH. done.
  - destruct n as [l]. simpl. induction l as [|p l IH].
    + simpl. intros text H. by apply elem_of_nil in H.
    + rewrite unit_names_str_cons.
      destruct p as [s0|text|text];
        [|split; [done|]; exists text; by left|];
        destruct (SingleLanguageUnitNames__str__ _) as [r|e]; simpl.
      * intros text H. apply elem_of_cons in H as [H|H]; [done|]. by apply (IH text).
      * destruct IH as [-> [text H]]. split; [done|]. exists text. by right.
      * intros t H. apply elem_of_cons in H as [H|H]; [done|]. by apply (IH t).
      * destruct IH as [-> [t H]]. split; [done|]. exists t. by right.
Qed.

(** ** Emptiness *)

(** [is_empty_with_ignore] with nothing to ignore is [is_empty]; ignoring
    more never makes an object less empty; and an object all of whose
    attributes are ignored is empty.  So an object that [is_empty] holds
    for is empty under every ignore set. *)
Theorem is_empty_with_ignore_grows (vars : list (string * attribute))
    (ignore_set ignore_more : list string) :
  ARObject_is_empty_with_ignore vars [] = ARObject_is_empty vars /\
  (ARObject_is_empty_with_ignore vars ignore_set = true ->
   ARObject_is_empty_with_ignore vars (ignore_set ++ ignore_more) = true) /\
  (ARObject_is_empty vars = true ->
   ARObject_is_empty_with_ignore vars ignore_set = true) /\
  ARObject_is_empty_with_ignore vars (map fst vars) = true.
Proof.
  unfold ARObject_is_empty_with_ignore, ARObject_is_empty.
  split; [|split; [|split]].
  - induction vars as [|kv vars IH]; [done|]. cbn [forallb]. rewrite IH.
    by rewrite bool_decide_eq_false_2 by apply not_elem_of_nil.
  - rewrite !forallb_forall. intros H kv Hkv. specialize (H kv Hkv).
    apply orb_true_iff in H as [H|H]; apply orb_true_iff; [left|by right].
    apply bool_decide_eq_true in H. apply bool_decide_eq_true.
    apply elem_of_app. by left.
  - rewrite !forallb_forall. intros H kv Hkv. rewrite (H kv Hkv). apply orb_true_r.
  - rewrite forallb_forall. intros kv Hkv. apply orb_true_iff. left.
    apply bool_decide_eq_true. apply list_elem_of_In, in_map, Hkv.
Qed.

(** ** Reference classes *)

(** No constructor of a reference class with a built-in kind can raise:
    the kind each of them passes is one that its own class accepts.  The
    reference keeps the value and that kind. *)
Theorem reference_constructors_accept_own_kind (v : ref_value) :
  CompuMethodRef__init__ v = Return (mkBaseRef CompuMethodRef v COMPU_METHOD) /\
  FunctionPtrSignatureRef__init__ v
    = Return (mkBaseRef FunctionPtrSignatureRef v BSW_MODULE_ENTRY) /\
  ImplementationDataTypeRef__init__ v
    = Return (mkBaseRef ImplementationDataTypeRef v IMPLEMENTATION_DATA_TYPE) /\
  SwAddrMethodRef__init__ v = Return (mkBaseRef SwAddrMethodRef v SW_ADDR_METHOD) /\
  SwBaseTypeRef__init__ v = Return (mkBaseRef SwBaseTypeRef v SW_BASE_TYPE) /\
  DataConstraintRef__init__ v = Return (mkBaseRef DataConstraintRef v DATA_CONSTR) /\
  PhysicalDimensionRef__init__ v
    = Return (mkBaseRef PhysicalDimensionRef v PHYSICAL_DIMENSION) /\
  UnitRef__init__ v = Return (mkBaseRef UnitRef v UNIT) /\
  IndexDataTypeRef__init__ v
    = Return (mkBaseRef IndexDataTypeRef v APPLICATION_PRIMITIVE_DATA_TYPE) /\
  ConstantRef__init__ v = Return (mkBaseRef ConstantRef v CONSTANT_SPECIFICATION).
Proof. repeat split. Qed.

(** ** Limits *)

(** [check_value] on integer limits: the value must lie between the two
    limits, and a limit itself is allowed exactly when its interval type is
    [CLOSED].  Without a lower limit the method raises [TypeError] for
    every value, also for an object that [is_empty] holds for. *)
Theorem check_value_interval (lo hi v : Z) (lower_type upper_type : option IntervalType)
    (upper : pyval) :
  (exists inside : bool,
     LimitObject.check_value
       (LimitObject.mkLimitObject (VInt lo) (VInt hi) lower_type upper_type) (VInt v)
     = Return inside /\
     (inside = true <->
      match lower_type with Some CLOSED => lo <= v | _ => lo < v end /\
      match upper_type with Some CLOSED => v <= hi | _ => v < hi end)) /\
  LimitObject.check_value
    (LimitObject.mkLimitObject VNone upper lower_type upper_type) (VInt v)
  = Raise TypeError /\
  LimitObject.is_empty (LimitObject.mkLimitObject VNone VNone lower_type upper_type) = true.
Proof.
  split; [|split].
  - unfold LimitObject.check_value, compare_values. simpl.
    rewrite (Z.gtb_ltb v hi), (Z.geb_leb v hi).
    destruct lower_type as [[]|], upper_type as [[]|]; simpl;
      repeat match goal with
             | |- context [?a <? ?b] => destruct (Z.ltb_spec a b)
             | |- context [?a <=? ?b] => destruct (Z.leb_spec a b)
             end; simpl; eexists; (split; [reflexivity|]); split; (done || lia).
  - unfold LimitObject.check_value, compare_values. simpl.
    by destruct lower_type as [[]|].
  - by destruct lower_type, upper_type.
Qed.

(** ** Value tables *)

Lemma make_value_table_scales_strings (auto_label : bool) (texts : list string) :
  forall i : Z,
    make_value_table_scales i (map VStr texts) auto_label
    = Return (imap (fun k text =>
                CompuScale__init__ (Some (scale_CompuConst (mkCompuConst (VStr text))))
                  (VInt (i + Z.of_nat k)) (VInt (i + Z.of_nat k))
                  (if auto_label then Some text else None)) texts).
Proof.
  induction texts as [|text texts IH]; intros i; [done|].
  cbn [map make_value_table_scales obind imap]. rewrite IH. simpl.
  rewrite Z.add_0_r. do 2 f_equal.
  apply imap_ext. intros k x _. simpl.
  by replace (i + 1 + Z.of_nat k) with (i + Z.of_nat (S k)) by lia.
Qed.

(** A value table made from a list of texts has one scale per text, in the
    order of the list; the scale of the text at position [k], counted from
    0, has [k] as lower and as upper limit, both closed, the text as its
    constant and, with [auto_label], as its label.  A list element that is
    neither a string nor a tuple raises [TypeError], a tuple of another
    length than 2 or 3 raises [ValueError], and no table is made. *)
Theorem make_value_table_numbers_texts (texts : list string) (default_value : arg CompuConst)
    (auto_label : bool) (after : list pyval) (bad : pyval) :
  make_value_table (map VStr texts) default_value auto_label
  = Return (Computation__init__with
      (Some (imap (fun k text =>
               CompuScale__init__ (Some (scale_CompuConst (mkCompuConst (VStr text))))
                 (VInt (Z.of_nat k)) (VInt (Z.of_nat k))
                 (if auto_label then Some text else None)) texts))
      default_value) /\
  (match bad with
   | VStr _ => False
   | VTuple [_; _] | VTuple [_; _; _] => False
   | _ => True
   end ->
   make_value_table (map VStr texts ++ bad :: after) default_value auto_label
   = Raise (match bad with VTuple _ => ValueError | _ => TypeError end)).
Proof.
  split.
  - unfold make_value_table. by rewrite make_value_table_scales_strings.
  - intros Hbad. unfold make_value_table.
    assert (H : forall i, make_value_table_scales i (map VStr texts ++ bad :: after) auto_label
                = Raise (match bad with VTuple _ => ValueError | _ => TypeError end)).
    { induction texts as [|text texts IH]; intros i.
      - simpl. destruct bad as [| | | | |l|l|]; try done.
        destruct l as [|a [|b [|c [|d l]]]]; done.
      - cbn [map app make_value_table_scales obind]. by rewrite IH. }
    by rewrite H.
Qed.

Lemma make_value_table_numbers_texts_witness :
  make_value_table (map VStr ["off"; "on"] ++ VInt 3 :: []) arg_None true = Raise TypeError.
Proof.
  apply (proj2 (make_value_table_numbers_texts ["off"; "on"] arg_None true [] (VInt 3))).
  exact I.
Defined.

(** ** What the builder builds *)

(** Induction over a Python value and the values inside it. *)
Lemma pyval_nested_ind (P : pyval -> Prop) :
  P VNone ->
  (forall b, P (VBool b)) ->
  (forall z, P (VInt z)) ->
  (forall f, P (VFloat f)) ->
  (forall s, P (VStr s)) ->
  (forall l, Forall P l -> P (VList l)) ->
  (forall l, Forall P l -> P (VTuple l)) ->
  (forall c, P (VObject c)) ->
  forall v, P v.
Proof.
  intros Hnone Hbool Hint Hfloat Hstr Hlist Htuple Hobject.
  fix IH 1. intros [|b|z|f|s|l|l|c].
  - apply Hnone.
  - apply Hbool.
  - apply Hint.
  - apply Hfloat.
  - apply Hstr.
  - apply Hlist. induction l as [|x l IHl]; constructor; [apply IH | exact IHl].
  - apply Htuple. induction l as [|x l IHl]; constructor; [apply IH | exact IHl].
  - apply Hobject.
Qed.

Lemma make_each_built (values : list pyval) :
  Forall (fun data => forall v, make_value data = Return v -> built_by_make_value v = true)
         values ->
  forall es, make_each make_value values = Return es ->
             forallb built_by_make_value es = true.
Proof.
  induction 1 as [|data values Hdata _ IH]; intros es H; simpl in H.
  - by injection H as <-.
  - destruct (make_value data) as [e|] eqn:He; [|done]. simpl in H.
    destruct (make_each make_value values) as [es'|]; [|done]. simpl in H.
    injection H as <-. simpl. rewrite (Hdata e eq_refl). by apply IH.
Qed.

(** The same for [make_value] and for [_make_from_args] under any label and
    default pattern, which is how [make_value] treats the value inside a
    tuple. *)
Lemma make_value_and_make_from_args_built (data : pyval) :
  (forall v, make_value data = Return v -> built_by_make_value v = true) /\
  (forall label default_pattern v,
      _make_from_args make_value label data default_pattern = Return v ->
      built_by_make_value v = true).
Proof.
  induction data as [|b|z|f|s|l IH|l IH|c] using pyval_nested_ind.
  - assert (H2 : forall label default_pattern v,
               _make_from_args make_value label VNone default_pattern = Return v ->
               built_by_make_value v = true).
    { intros label dp v H. simpl in H. unfold NotAvailableValueSpecification__init__ in H.
      destruct (int_value dp) as [z|]; [destruct (z <? 0); [done|]|];
        by injection H as <-. }
    split; [apply (H2 None VNone)|exact H2].
  - split; [intros v H|intros label dp v H]; by injection H as <-.
  - split; [intros v H|intros label dp v H]; by injection H as <-.
  - split; [intros v H|intros label dp v H]; by injection H as <-.
  - split; [intros v H|intros label dp v H]; by injection H as <-.
  - assert (H2 : forall label default_pattern v,
               _make_from_args make_value label (VList l) default_pattern = Return v ->
               built_by_make_value v = true).
    { intros label dp v H. simpl in H.
      destruct l as [|first rest]; [done|].
      destruct first as [| | | |tag| | |]; try done.
      apply Forall_cons in IH as [_ IH].
      assert (Hrest : Forall (fun data => forall v, make_value data = Return v ->
                                built_by_make_value v = true) rest).
      { eapply Forall_impl; [exact IH|]. by intros x [Hx _]. }
      unfold _make_array_value_spefication, _make_record_value_spefication in H.
      repeat case_bool_decide; try done;
        (destruct (make_each make_value rest) as [es|] eqn:Hes; [|done]);
        simpl in H; injection H as <-; simpl; by eapply make_each_built. }
    split; [apply (H2 None VNone)|exact H2].
  - split; [|by intros label dp v H].
    intros v H. simpl in H. destruct l as [|first rest]; [done|].
    destruct first as [| | | |label| | |]; try done.
    apply Forall_cons in IH as [_ IH].
    destruct rest as [|value [|default_pattern [|]]]; try done;
      apply Forall_cons in IH as [[_ IH] _]; by eapply IH.
  - split; [intros v H|intros label dp v H]; done.
Qed.

(** Whatever data [make_value] is given, what it returns is made of text,
    numerical, not-available, array and record nodes only, at every depth:
    a text node has a value, a numerical node holds an [int] or a [float],
    a not-available node has the default pattern format.  It never builds
    an application value or a constant reference. *)
Theorem make_value_builds (data : pyval) (v : ValueSpecification) :
  make_value data = Return v -> built_by_make_value v = true.
Proof. apply make_value_and_make_from_args_built. Qed.

Lemma make_value_builds_witness :
  built_by_make_value
    (RecordValueSpecification None
       [NumericalValueSpecification (Some "a") (VInt 1);
        ArrayValueSpecification None [TextValueSpecification None (Some "s")]]) = true.
Proof.
  apply (make_value_builds
           (VList [VStr "R"; VTuple [VStr "a"; VInt 1]; VList [VStr "a"; VStr "s"]])).
  reflexivity.
Defined.

Section StoreNavigation.
Import Store.

(** ** Packages: paths *)


Lemma str_partition_no_sep (c : ascii) (s : string) :
  str_contains c s = false -> str_partition c s = (s, "", "").
Proof.
  induction s as [|c' s IH]; [done|]. simpl.
  destruct (Ascii.eqb c' c); [done|]. simpl. intros H. by rewrite IH.
Qed.

Lemma str_partition_app (c : ascii) (a b : string) :
  str_contains c a = false ->
  str_partition c (a +:+ String c b) = (a, String c "", b).
Proof.
  induction a as [|c' a IH]; simpl.
  - by rewrite Ascii.eqb_refl.
  - destruct (Ascii.eqb c' c); [done|]. simpl. intros H. by rewrite IH.
Qed.

Lemma str_startswith_app (c : ascii) (a b : string) :
  a <> "" -> str_contains c a = false -> str_startswith c (a +:+ b) = false.
Proof.
  destruct a as [|c' a]; [done|]. simpl. intros _ H.
  by destruct (Ascii.eqb c' c).
Qed.

Lemma str_startswith_contains (c : ascii) (s : string) :
  str_contains c s = false -> str_startswith c s = false.
Proof.
  destruct s as [|c' s]; [done|]. simpl. by destruct (Ascii.eqb c' c).
Qed.

Lemma grows_refl h : grows h h.
Proof. intros o r b H. eauto. Qed.

Lemma grows_trans h1 h2 h3 : grows h1 h2 -> grows h2 h3 -> grows h1 h3.
Proof.
  intros H12 H23 o r b H.
  destruct (H12 o r b H) as (r2 & b2 & H2 & Hs2).
  destruct (H23 o r2 b2 H2) as (r3 & b3 & H3 & Hs3).
  exists r3, b3. split; [done|]. by etrans.
Qed.

Lemma create_package_cases (h : store) (p : oid) (n : string) c h' :
  create_package p n h = (Return c, h') ->
  exists r b, h !! p = Some (PackageObj r b) /\
    ((is_Some (_collection_map b !! n) /\ c = ExceptionObject ValueError /\ h' = h) \/
     (_collection_map b !! n = None /\ exists q, c = NewPackage q /\ h !! q = None /\
        h' !! q = Some (PackageObj (mkReferrable n (Some p)) (mkPackageBody [] [] ∅)) /\
        h' !! p = Some (PackageObj r
                     (mkPackageBody (elements b) (packages b ++ [q])%list
                                    (<[n := q]> (_collection_map b)))) /\
        (forall o, o <> p -> o <> q -> h' !! o = h !! o))).
Proof.
  intros H.
  destruct (h !! p) as [[r b|?|?|]|] eqn:Hp;
    try (unfold create_package, mbind, M_bind, bind, self_package in H;
         rewrite Hp in H; discriminate).
  exists r, b. split; [done|].
  destruct (_collection_map b !! n) as [x|] eqn:Hn.
  - left. split; [eauto|].
    rewrite (create_package_existing h p n r b Hp) in H by eauto.
    by injection H as <- <-.
  - right. split; [done|].
    destruct (create_package_absent h p n r b Hp Hn) as (h2 & H1 & H2 & H3 & H4 & H5).
    rewrite H1 in H. injection H as <- <-. eauto 10.
Qed.

Lemma create_package_grows (h : store) (p : oid) (n : string) c h' :
  create_package p n h = (Return c, h') -> grows h h'.
Proof.
  intros H. apply create_package_cases in H as (r & b & Hp & [(_ & _ & ->)|(Hn & q & _ & Hq & Hq' & Hp' & Ho)]).
  - apply grows_refl.
  - intros o ro bo Hobj.
    destruct (decide (o = p)) as [->|Hop].
    + rewrite Hp in Hobj. injection Hobj as <- <-.
      eexists _, _. split; [exact Hp'|]. simpl. by apply insert_subseteq.
    + assert (o <> q) by (intros ->; congruence).
      rewrite <- (Ho o) in Hobj by done. eauto.
Qed.

(** One call of [make_packages] that returns: the package [x] for the first
    name, found or made, and then either [x] itself or what the call on [x]
    gives for the rest. *)
Lemma make_packages_step (d : nat) (p : oid) (ref : string) (h h1 : store) c :
  make_packages (S d) p ref h = (Return c, h1) ->
  exists head sep rest x h2 r2 b2 rx bx,
    str_startswith "/" ref = false /\
    str_partition "/" ref = (head, sep, rest) /\
    grows h h2 /\
    h2 !! p = Some (PackageObj r2 b2) /\ _collection_map b2 !! head = Some x /\
    h2 !! x = Some (PackageObj rx bx) /\
    (if (0 <? String.length rest)%nat
     then make_packages d x rest h2 = (Return c, h1)
     else c = NewPackage x /\ h1 = h2).
Proof.
  intros H. simpl in H. unfold mbind, M_bind, bind in H.
  destruct (self_package p h) as [[[r b]|e] h0] eqn:Hs; [|done].
  apply self_package_index in Hs as [-> Hp]. simpl in H.
  destruct (str_startswith "/" ref) eqn:Hsl; [done|].
  destruct (str_partition "/" ref) as [[head sep] rest] eqn:Hpart.
  exists head, sep, rest.
  destruct (_collection_map b !! head) as [item|] eqn:Hitem.
  - unfold deref in H. simpl in H.
    destruct (h !! item) as [[ri bi|?|?|]|] eqn:Hi; simpl in H; try done.
    exists item, h, r, b, ri, bi. repeat (split; [done || apply grows_refl|]).
    destruct (0 <? String.length rest)%nat; [done|]. by injection H as <- <-.
  - destruct (create_package p head h) as [[c0|e] h2] eqn:Hc; [|done].
    pose proof (create_package_grows _ _ _ _ _ Hc) as Hg.
    apply create_package_cases in Hc as (r' & b' & Hp' & [([? Hx] & _)|(_ & q & -> & _ & Hq' & Hp2 & _)]).
    { rewrite Hp in Hp'. injection Hp' as <- <-. congruence. }
    rewrite Hp in Hp'. injection Hp' as <- <-.
    eexists q, h2, _, _, _, _. split; [done|]. split; [done|]. split; [done|].
    split; [exact Hp2|]. split; [simpl; apply lookup_insert_eq|]. split; [exact Hq'|].
    destruct (0 <? String.length rest)%nat; [done|]. by injection H as <- <-.
Qed.

Lemma make_packages_grows (d : nat) :
  forall p ref h c h1, make_packages d p ref h = (Return c, h1) -> grows h h1.
Proof.
  induction d as [|d IH]; intros p ref h c h1 H; [done|].
  apply make_packages_step in H
    as (head & sep & rest & x & h2 & r2 & b2 & rx & bx & _ & _ & Hg & _ & _ & _ & H).
  destruct (0 <? String.length rest)%nat.
  - eapply grows_trans; [exact Hg|]. by eapply IH.
  - by destruct H as [_ ->].
Qed.

Lemma make_packages_returns (d : nat) :
  forall p ref h c h1, make_packages d p ref h = (Return c, h1) ->
  exists q r b, c = NewPackage q /\ h1 !! q = Some (PackageObj r b).
Proof.
  induction d as [|d IH]; intros p ref h c h1 H; [done|].
  apply make_packages_step in H
    as (head & sep & rest & x & h2 & r2 & b2 & rx & bx & _ & _ & _ & _ & _ & Hx & H).
  destruct (0 <? String.length rest)%nat.
  - by eapply IH.
  - destruct H as [-> ->]. eauto.
Qed.

Lemma find_grows (h h' : store) (d : nat) :
  grows h h' ->
  forall p ref q, find d h p ref = Return (Some q) -> find d h' p ref = Return (Some q).
Proof.
  intros Hg. induction d as [|d IH]; intros p ref q H; [done|].
  simpl in *.
  destruct (h !! p) as [[r b|cl ?|?|]|] eqn:Hp; try done; [|by destruct cl; try destruct (str_contains _ _)].
  destruct (Hg p r b Hp) as (r' & b' & -> & Hsub).
  destruct (str_partition "/" _) as [[head sep] rest].
  destruct (_collection_map b !! head) as [item|] eqn:Hitem; [|done].
  rewrite (lookup_weaken _ _ _ _ Hitem Hsub).
  destruct (0 <? String.length rest)%nat; [by apply IH|done].
Qed.

Lemma find_after_make_packages_aux (d : nat) :
  forall p ref h q h1,
    make_packages d p ref h = (Return (NewPackage q), h1) ->
    find d h1 p ref = Return (Some q).
Proof.
  induction d as [|d IH]; intros p ref h q h1 H; [done|].
  apply make_packages_step in H
    as (head & sep & rest & x & h2 & r2 & b2 & rx & bx & Hsl & Hpart & _ & Hp2 & Hx & _ & H).
  assert (Hg : grows h2 h1).
  { destruct (0 <? String.length rest)%nat.
    - by eapply make_packages_grows.
    - destruct H as [_ ->]. apply grows_refl. }
  destruct (Hg p r2 b2 Hp2) as (r1 & b1 & Hp1 & Hsub).
  simpl. rewrite Hp1, Hsl, Hpart. rewrite (lookup_weaken _ _ _ _ Hx Hsub).
  destruct (0 <? String.length rest)%nat.
  - by eapply IH.
  - by destruct H as [[= ->] _].
Qed.

Lemma make_packages_again_aux (d : nat) :
  forall p ref h c h1,
    make_packages d p ref h = (Return c, h1) ->
    make_packages d p ref h1 = (Return c, h1).
Proof.
  induction d as [|d IH]; intros p ref h c h1 H; [done|].
  apply make_packages_step in H
    as (head & sep & rest & x & h2 & r2 & b2 & rx & bx & Hsl & Hpart & _ & Hp2 & Hx & Hxp & H).
  assert (Hg : grows h2 h1).
  { destruct (0 <? String.length rest)%nat.
    - by eapply make_packages_grows.
    - destruct H as [_ ->]. apply grows_refl. }
  destruct (Hg p r2 b2 Hp2) as (r1 & b1 & Hp1 & Hsub).
  destruct (Hg x rx bx Hxp) as (rx1 & bx1 & Hx1 & _).
  simpl. unfold mbind, M_bind, bind, self_package. rewrite Hp1. simpl.
  rewrite Hsl, Hpart. rewrite (lookup_weaken _ _ _ _ Hx Hsub).
  unfold deref. rewrite Hx1. simpl.
  destruct (0 <? String.length rest)%nat.
  - by eapply IH.
  - by destruct H as [-> _].
Qed.

(** Looking up by name what [append] has just added gives the item back,
    for every name without a slash. *)
Theorem find_after_append (depth : nat) (p a : oid) (n : string) (h h1 : store) :
  append p a h = (Return tt, h1) ->
  collectable_name <$> (h !! a) = Some (Some n) ->
  str_contains "/" n = false ->
  find (S depth) h1 p n = Return (Some a).
Proof.
  intros Happ Hn Hslash.
  apply append_indexes in Happ as (n' & m & Hn' & Hm & Hmn & _).
  rewrite Hn in Hn'. injection Hn' as <-.
  simpl. destruct (h1 !! p) as [[r b|?|?|]|]; simpl in Hm; try done.
  injection Hm as <-.
  rewrite (str_startswith_contains _ _ Hslash), (str_partition_no_sep _ _ Hslash).
  by rewrite Hmn.
Qed.

Lemma find_after_append_witness :
  find 1 (snd (append 4%nat 5%nat demo_store)) 4%nat "X" = Return (Some 5%nat).
Proof.
  apply (find_after_append 0 4%nat 5%nat "X" demo_store); vm_compute; reflexivity.
Defined.

(** [make_packages] returns a package of the store, never the exception
    object that [create_package] returns for a name that is taken. *)
Theorem make_packages_returns_package (depth : nat) (p : oid) (ref : string)
    (h h1 : store) (c : created) :
  make_packages depth p ref h = (Return c, h1) ->
  exists q r b, c = NewPackage q /\ h1 !! q = Some (PackageObj r b).
Proof. apply make_packages_returns. Qed.

Lemma make_packages_returns_package_witness :
  exists q r b,
    NewPackage 9%nat = NewPackage q /\
    snd (make_packages 3 4%nat "P/Q" demo_store) !! q = Some (PackageObj r b).
Proof.
  apply (make_packages_returns_package 3 4%nat "P/Q" demo_store).
  vm_compute. reflexivity.
Defined.

(** What [make_packages] returns for a path is what [find] then finds
    under that path. *)
Theorem find_after_make_packages (depth : nat) (p q : oid) (ref : string) (h h1 : store) :
  make_packages depth p ref h = (Return (NewPackage q), h1) ->
  find depth h1 p ref = Return (Some q).
Proof. apply find_after_make_packages_aux. Qed.

Lemma find_after_make_packages_witness :
  find 3 (snd (make_packages 3 4%nat "P/Q" demo_store)) 4%nat "P/Q" = Return (Some 9%nat).
Proof.
  apply (find_after_make_packages 3 4%nat 9%nat "P/Q" demo_store).
  vm_compute. reflexivity.
Defined.

(** A second call of [make_packages] with the same path returns the same
    package and changes nothing. *)
Theorem make_packages_twice (depth : nat) (p : oid) (ref : string) (h h1 : store)
    (c : created) :
  make_packages depth p ref h = (Return c, h1) ->
  make_packages depth p ref h1 = (Return c, h1).
Proof. apply make_packages_again_aux. Qed.

Lemma make_packages_twice_witness :
  let h1 := snd (make_packages 3 4%nat "P/Q" demo_store) in
  make_packages 3 4%nat "P/Q" h1 = (Return (NewPackage 9%nat), h1).
Proof.
  apply (make_packages_twice 3 4%nat "P/Q" demo_store).
  vm_compute. reflexivity.
Defined.

(** [make_packages] refuses a path that starts with a slash, and a path
    whose first name is taken by an element; in both cases before it has
    changed anything. *)
Theorem make_packages_refuses (depth : nat) (p : oid) (ref : string) (h : store) r b :
  h !! p = Some (PackageObj r b) ->
  (str_startswith "/" ref = true ->
     make_packages (S depth) p ref h = (Raise ValueError, h)) /\
  (forall item cl ri,
     str_startswith "/" ref = false ->
     _collection_map b !! (str_partition "/" ref).1.1 = Some item ->
     h !! item = Some (ElementObj cl ri) ->
     make_packages (S depth) p ref h = (Raise KeyError, h)).
Proof.
  intros Hp. split.
  - intros Hs. simpl. unfold mbind, M_bind, bind, self_package. rewrite Hp. simpl.
    by rewrite Hs.
  - intros item cl ri Hs Hitem Hi.
    simpl. unfold mbind, M_bind, bind, self_package. rewrite Hp. simpl. rewrite Hs.
    destruct (str_partition "/" ref) as [[head sep] rest]. simpl in Hitem.
    rewrite Hitem. unfold deref. rewrite Hi. done.
Qed.

Lemma make_packages_refuses_witness :
  make_packages 1 1%nat "/B" demo_store = (Raise ValueError, demo_store) /\
  make_packages 1 2%nat "C/D" demo_store = (Raise KeyError, demo_store).
Proof.
  split.
  - refine (proj1 (make_packages_refuses 0 1%nat "/B" demo_store
                     (mkReferrable "A" (Some 0%nat))
                     (mkPackageBody [] [2%nat] {[ "B" := 2%nat ]}) _) _);
      vm_compute; reflexivity.
  - refine (proj2 (make_packages_refuses 0 2%nat "C/D" demo_store
                     (mkReferrable "B" (Some 1%nat))
                     (mkPackageBody [3%nat] [] {[ "C" := 3%nat ]}) _)
                  3%nat cls_CompuMethod (mkReferrable "C" (Some 2%nat)) _ _ _);
      vm_compute; reflexivity.
Defined.

(** An empty name inside the path is found only when the walk gets there:
    [make_packages] raises, and the packages for the names before it have
    been made and stay. *)
Theorem make_packages_not_atomic (depth : nat) (p : oid) (n rest : string) (h : store) r b :
  h !! p = Some (PackageObj r b) ->
  _collection_map b !! n = None ->
  n <> "" ->
  str_contains "/" n = false ->
  exists q h',
    make_packages (S (S depth)) p (n +:+ "//" +:+ rest) h = (Raise ValueError, h') /\
    h !! q = None /\
    h' !! q = Some (PackageObj (mkReferrable n (Some p)) (mkPackageBody [] [] ∅)) /\
    h' !! p = Some (PackageObj r
                 (mkPackageBody (elements b) (packages b ++ [q])%list
                                (<[n := q]> (_collection_map b)))).
Proof.
  intros Hp Hn Hne Hslash.
  destruct (create_package_absent h p n r b Hp Hn) as (h' & Hc & Hq & Hq' & Hp' & _).
  exists (fresh (dom h)), h'. split; [|done].
  change (n +:+ "//" +:+ rest) with (n +:+ String "/" (String "/" rest)).
  cbn [make_packages]. unfold mbind, M_bind, bind, self_package. rewrite Hp. cbn [fst snd].
  rewrite (str_startswith_app _ _ _ Hne Hslash), (str_partition_app _ _ _ Hslash).
  cbn [snd]. rewrite Hn, Hc. cbn [String.length Nat.ltb Nat.leb]. rewrite Hq'. done.
Qed.

Lemma make_packages_not_atomic_witness :
  exists q h',
    make_packages 2 4%nat "P//Q" demo_store = (Raise ValueError, h') /\
    demo_store !! q = None /\
    h' !! q = Some (PackageObj (mkReferrable "P" (Some 4%nat)) (mkPackageBody [] [] ∅)) /\
    h' !! 4%nat = Some (PackageObj (mkReferrable "D" (Some 0%nat))
                     (mkPackageBody [] [q] (<["P" := q]> ∅))).
Proof.
  apply (make_packages_not_atomic 0 4%nat "P" "Q" demo_store
           (mkReferrable "D" (Some 0%nat)) (mkPackageBody [] [] ∅));
    [vm_compute; reflexivity | vm_compute; reflexivity | discriminate | reflexivity].
Defined.

(** [find] answers [None] for a first name the package does not know,
    whatever follows it.  For a known name it answers the item; when the
    item is an element without a [find] method and more of the path
    follows, it raises [AttributeError]. *)
Theorem find_unknown_or_blocked (depth : nat) (p : oid) (n rest : string) (h : store) r b :
  h !! p = Some (PackageObj r b) ->
  n <> "" ->
  str_contains "/" n = false ->
  (_collection_map b !! n = None ->
     find (S depth) h p n = Return None /\
     find (S depth) h p (n +:+ "/" +:+ rest) = Return None) /\
  (forall item cl ri,
     _collection_map b !! n = Some item ->
     h !! item = Some (ElementObj cl ri) ->
     find (S depth) h p n = Return (Some item) /\
     (rest <> "" -> cl <> cls_ImplementationDataType ->
        find (S (S depth)) h p (n +:+ "/" +:+ rest) = Raise AttributeError)).
Proof.
  intros Hp Hne Hslash.
  change (n +:+ "/" +:+ rest) with (n +:+ String "/" rest).
  split.
  - intros Hn. split; simpl; rewrite Hp.
    + rewrite (str_startswith_contains _ _ Hslash), (str_partition_no_sep _ _ Hslash).
      by rewrite Hn.
    + rewrite (str_startswith_app _ _ _ Hne Hslash), (str_partition_app _ _ _ Hslash).
      by rewrite Hn.
  - intros item cl ri Hitem Hi. split.
    + simpl. rewrite Hp.
      rewrite (str_startswith_contains _ _ Hslash), (str_partition_no_sep _ _ Hslash).
      by rewrite Hitem.
    + intros Hrest Hcl. cbn [find]. rewrite Hp.
      rewrite (str_startswith_app _ _ _ Hne Hslash), (str_partition_app _ _ _ Hslash).
      rewrite Hitem. destruct rest as [|c0 rest]; [done|]. cbn [String.length Nat.ltb Nat.leb].
      rewrite Hi. by destruct cl.
Qed.

Lemma find_unknown_or_blocked_witness :
  (find 1 demo_store 2%nat "Z" = Return None /\
   find 1 demo_store 2%nat "Z/C/x" = Return None) /\
  (find 1 demo_store 2%nat "C" = Return (Some 3%nat) /\
   find 2 demo_store 2%nat "C/x" = Raise AttributeError).
Proof.
  pose proof (find_unknown_or_blocked 0 2%nat "Z" "C/x" demo_store
                (mkReferrable "B" (Some 1%nat))
                (mkPackageBody [3%nat] [] {[ "C" := 3%nat ]})
                eq_refl ltac:(discriminate) eq_refl) as [H1 _].
  pose proof (find_unknown_or_blocked 0 2%nat "C" "x" demo_store
                (mkReferrable "B" (Some 1%nat))
                (mkPackageBody [3%nat] [] {[ "C" := 3%nat ]})
                eq_refl ltac:(discriminate) eq_refl) as [_ H2].
  split.
  - apply H1. reflexivity.
  - destruct (H2 3%nat cls_CompuMethod (mkReferrable "C" (Some 2%nat)) eq_refl eq_refl)
      as [Ha Hb].
    split; [exact Ha|]. apply Hb; discriminate.
Defined.

(** [append] moves nothing: an element that is appended to a second
    package gets the second package as parent, and the first package is
    left as it was, with the element in its list and in its index.  Both
    packages then find the element under its name. *)
Theorem append_does_not_detach (depth : nat) (h : store) (old q c : oid) (cl : ar_class)
    (n : string) ro bo rq bq :
  h !! c = Some (ElementObj cl (mkReferrable n (Some old))) ->
  h !! old = Some (PackageObj ro bo) ->
  _collection_map bo !! n = Some c ->
  h !! q = Some (PackageObj rq bq) ->
  _collection_map bq !! n = None ->
  str_contains "/" n = false ->
  exists h',
    append q c h = (Return tt, h') /\
    h' !! c = Some (ElementObj cl (mkReferrable n (Some q))) /\
    h' !! old = Some (PackageObj ro bo) /\
    find (S depth) h' old n = Return (Some c) /\
    find (S depth) h' q n = Return (Some c).
Proof.
  intros Hc Hold Hidx Hq Hn Hslash.
  assert (Hcq : c <> q) by (intros ->; congruence).
  assert (Hco : c <> old) by (intros ->; congruence).
  assert (Hoq : old <> q) by (intros ->; congruence).
  destruct (append q c h) as [[[]|e] h'] eqn:Happ.
  2:{ unfold append, mbind, M_bind, bind, self_package, deref in Happ.
      rewrite Hq, Hc in Happ. simpl in Happ. unfold collection_map_contains in Happ.
      rewrite bool_decide_eq_false_2 in Happ by (rewrite Hn; by intros [? ?]).
      discriminate. }
  exists h'. split; [done|].
  pose proof (find_after_append depth q c n h h' Happ) as Hfind.
  unfold append, mbind, M_bind, bind, self_package, deref in Happ.
  rewrite Hq, Hc in Happ. simpl in Happ. unfold collection_map_contains in Happ.
  rewrite bool_decide_eq_false_2 in Happ by (rewrite Hn; by intros [? ?]).
  unfold modify in Happ. simpl in Happ. injection Happ as <-.
  assert (Hold' : alter (collection_map_set n c) q
                    (alter (elements_append c) q (alter (set_parent (Some q)) c h)) !! old
                  = Some (PackageObj ro bo)).
  { by rewrite !lookup_alter_ne by done. }
  split; [|split; [exact Hold'|split]].
  - rewrite !lookup_alter_ne, lookup_alter_eq by done. by rewrite Hc.
  - simpl. rewrite Hold'.
    rewrite (str_startswith_contains _ _ Hslash), (str_partition_no_sep _ _ Hslash).
    by rewrite Hidx.
  - apply Hfind; [by rewrite Hc|done].
Qed.

Lemma append_does_not_detach_witness :
  exists h',
    append 4%nat 3%nat demo_store = (Return tt, h') /\
    h' !! 3%nat = Some (ElementObj cls_CompuMethod (mkReferrable "C" (Some 4%nat))) /\
    h' !! 2%nat = Some (PackageObj (mkReferrable "B" (Some 1%nat))
                     (mkPackageBody [3%nat] [] {[ "C" := 3%nat ]})) /\
    find 1 h' 2%nat "C" = Return (Some 3%nat) /\
    find 1 h' 4%nat "C" = Return (Some 3%nat).
Proof.
  apply (append_does_not_detach 0 demo_store 2%nat 4%nat 3%nat cls_CompuMethod "C"
           (mkReferrable "B" (Some 1%nat)) (mkPackageBody [3%nat] [] {[ "C" := 3%nat ]})
           (mkReferrable "D" (Some 0%nat)) (mkPackageBody [] [] ∅));
    reflexivity.
Defined.

Lemma update_ref_parts_self_parent (h : store) (p : oid) r b :
  h !! p = Some (PackageObj r b) -> parent r = Some p ->
  forall depth parts, update_ref_parts depth h p parts = Raise RecursionError.
Proof.
  intros Hp Hr depth. induction depth as [|depth IH]; intros parts; [done|].
  simpl. rewrite Hp, Hr. apply IH.
Qed.

(** [append] does not refuse to add a package to itself.  The package is
    then its own parent, the walk of [update_ref_parts] through the parents
    never ends, and [ref()] of every element of the package raises
    [RecursionError], whatever the recursion limit. *)
Theorem append_to_itself (h : store) (p : oid) r b :
  h !! p = Some (PackageObj r b) ->
  _collection_map b !! name r = None ->
  exists h' b',
    append p p h = (Return tt, h') /\
    h' !! p = Some (PackageObj (mkReferrable (name r) (Some p)) b') /\
    (forall depth parts, update_ref_parts depth h' p parts = Raise RecursionError) /\
    (forall depth c cl n,
        has_ref cl = true ->
        h' !! c = Some (ElementObj cl (mkReferrable n (Some p))) ->
        ref depth h' c = Raise RecursionError).
Proof.
  intros Hp Hn.
  unfold append, mbind, M_bind, bind, self_package, deref. rewrite Hp. simpl.
  rewrite Hp. simpl. unfold collection_map_contains.
  rewrite bool_decide_eq_false_2 by (rewrite Hn; by intros [? ?]).
  unfold modify. simpl. eexists _, _. split; [reflexivity|].
  match goal with |- ?h' !! p = _ /\ _ =>
    assert (Hp' : h' !! p = Some (PackageObj (mkReferrable (name r) (Some p))
                    (mkPackageBody (elements b) (packages b ++ [p])%list
                       (<[name r := p]> (_collection_map b)))))
  end.
  { rewrite !lookup_alter_eq, Hp. done. }
  split; [exact Hp'|].
  pose proof (update_ref_parts_self_parent _ p _ _ Hp' eq_refl) as Hloop.
  split; [exact Hloop|].
  intros depth c cl n Hcl Hc. unfold ref. rewrite Hc.
  destruct cl; try discriminate Hcl;
    unfold CompuMethod_ref, DataConstraint_ref, SwBaseType_ref, ImplementationDataType_ref,
      ApplicationPrimitiveDataType_ref, ApplicationArrayDataType_ref,
      ApplicationRecordDataType_ref, SwAddrMethod_ref, ConstantSpecification_ref,
      ref_or_none, ref_asserting; simpl; by rewrite Hloop.
Qed.

Lemma append_to_itself_witness :
  exists h' b',
    append 6%nat 6%nat demo_store = (Return tt, h') /\
    h' !! 6%nat = Some (PackageObj (mkReferrable "X" (Some 6%nat)) b') /\
    (forall depth parts, update_ref_parts depth h' 6%nat parts = Raise RecursionError) /\
    (forall depth c cl n,
        has_ref cl = true ->
        h' !! c = Some (ElementObj cl (mkReferrable n (Some 6%nat))) ->
        ref depth h' c = Raise RecursionError).
Proof.
  apply (append_to_itself demo_store 6%nat (mkReferrable "X" None) (mkPackageBody [] [] ∅));
    reflexivity.
Defined.

End StoreNavigation.
